(** * SkillRadarDashboard.tsx: score validation, the skill collection,
      the chart projections and the PDF report.

    The development embeds the logic of [src/SkillRadarDashboard.tsx]:
    - [handleInput] of the [SkillEditRow] component (format check, [Number],
      range check, [onChange]);
    - the state of [SkillRadarDashboard] with its initial load effect and
      [handleSkillScoreChange];
    - the projections [radarData] and [trendData];
    - [exportPDF], as a program over a vertical cursor that emits the calls
      made on the jsPDF document.

    JavaScript numbers are IEEE 754 binary64 values; they are modelled by
    [spec_float] with precision 53 and maximal exponent 1024. *)

From Stdlib Require Import ZArith List String Ascii Bool Lia.
From Stdlib Require Import Floats.SpecFloat.
From stdpp Require Import base list.
Import ListNotations.

Local Open Scope string_scope.
Local Open Scope list_scope.
Local Open Scope Z_scope.

(** String concatenation, as [+] and template strings do it. *)
Infix "+++" := String.append (at level 60, right associativity).

(* ================================================================= *)
(** ** JavaScript numbers *)

Module JS.

Definition number : Type := spec_float.

Definition prec : Z := 53.
Definition emax : Z := 1024.

Definition NaN : number := S754_nan.
Definition pos_zero : number := S754_zero false.
Definition neg_zero : number := S754_zero true.
Definition pos_infinity : number := S754_infinity false.
Definition neg_infinity : number := S754_infinity true.

(** The number denoted by an integer literal. *)
Definition of_Z (z : Z) : number := binary_normalize prec emax z 0 false.

Definition zero : number := pos_zero.
Definition one : number := Eval vm_compute in of_Z 1.
Definition ten : number := Eval vm_compute in of_Z 10.

(** The binary64 value nearest to [m / d] (ties to even), with sign [neg]:
    the value of a decimal literal whose digits read [m] and whose scale
    is [d]. *)
Definition ratio (neg : bool) (m d : positive) : number :=
  SFdiv prec emax (S754_finite neg m 0) (S754_finite false d 0).

Definition isNaN (x : number) : bool :=
  match x with S754_nan => true | _ => false end.

(** [x < y] and [x > y]; both are false when an operand is NaN. *)
Definition lt (x y : number) : bool := SFltb x y.
Definition gt (x y : number) : bool := SFltb y x.

Definition sub (x y : number) : number := SFsub prec emax x y.

Definition is_pos_zero (x : number) : bool :=
  match x with S754_zero false => true | _ => false end.
Definition is_neg_zero (x : number) : bool :=
  match x with S754_zero true => true | _ => false end.

(** [Math.max(...args)]: NaN if an argument is NaN; otherwise the running
    maximum starting from -Infinity, where +0 counts as larger than -0. *)
Definition max_step (highest x : number) : number :=
  if is_pos_zero x && is_neg_zero highest then pos_zero
  else if gt x highest then x else highest.

Definition Math_max (args : list number) : number :=
  if existsb isNaN args then NaN
  else fold_left max_step args neg_infinity.

(** [Math.min(...args)], dually: -0 counts as smaller than +0. *)
Definition min_step (lowest x : number) : number :=
  if is_neg_zero x && is_pos_zero lowest then neg_zero
  else if lt x lowest then x else lowest.

Definition Math_min (args : list number) : number :=
  if existsb isNaN args then NaN
  else fold_left min_step args pos_infinity.

(** *** [toFixed] and the unary plus applied to its result

    [x.toFixed(f)] returns a string.  For a NaN or infinite [x], and for
    [|x| >= 10^21], it is [ToString(x)]; otherwise it is a sign followed
    by the decimal digits of the integer [n] nearest to [|x| * 10^f]
    (the larger one on a tie), with the last [f] digits after the point.
    The string is kept in structured form. *)
Inductive FixedString : Type :=
| ViaToString (x : number)
| FixedDigits (neg : bool) (n : Z) (f : nat).

(** [n] for a positive real [m * 2^e]: the integer nearest to
    [m * 2^e * 10^f], the larger one on a tie. *)
Definition nearest_scaled (m : positive) (e : Z) (f : nat) : Z :=
  let scaled := Z.pos m * 10 ^ Z.of_nat f in
  if 0 <=? e then scaled * 2 ^ e
  else (2 * scaled + 2 ^ (- e)) / 2 ^ (1 - e).

(** Whether the real [m * 2^e] is at least [10^21]. *)
Definition at_least_1e21 (m : positive) (e : Z) : bool :=
  if 0 <=? e then 10 ^ 21 <=? Z.pos m * 2 ^ e
  else 10 ^ 21 * 2 ^ (- e) <=? Z.pos m.

Definition toFixed (x : number) (f : nat) : FixedString :=
  match x with
  | S754_nan | S754_infinity _ => ViaToString x
  | S754_zero _ => FixedDigits false 0 f
  | S754_finite s m e =>
      if at_least_1e21 m e then ViaToString x
      else FixedDigits s (nearest_scaled m e f) f
  end.

(** [+str] for a string produced by [toFixed]: [ToString] round-trips, a
    string of digits denotes the nearest binary64 value, and "-0.00"
    denotes -0. *)
Definition unary_plus (str : FixedString) : number :=
  match str with
  | ViaToString x => x
  | FixedDigits neg n f =>
      match n with
      | Z.pos m => ratio neg m (Z.to_pos (10 ^ Z.of_nat f))
      | _ => S754_zero neg
      end
  end.

(** [Object.is] on numbers, the test React applies to the dependencies of
    an effect: NaN is the same value as NaN, and +0 is not the same value
    as -0. *)
Definition same_value (a b : number) : bool :=
  match a, b with
  | S754_zero s1, S754_zero s2 => Bool.eqb s1 s2
  | S754_infinity s1, S754_infinity s2 => Bool.eqb s1 s2
  | S754_nan, S754_nan => true
  | S754_finite s1 m1 e1, S754_finite s2 m2 e2 =>
      Bool.eqb s1 s2 && Pos.eqb m1 m2 && Z.eqb e1 e2
  | _, _ => false
  end.

End JS.

Abbreviation number := JS.number.

(* ================================================================= *)
(** ** [SkillEditRow]: the format check and [Number] *)

(** [\d]: one of the characters 0 to 9. *)
Definition is_digit (c : ascii) : bool :=
  let n := Z.of_nat (nat_of_ascii c) in (48 <=? n) && (n <=? 57).

Definition digit_value (c : ascii) : Z := Z.of_nat (nat_of_ascii c) - 48.

(** [\d*]: the longest prefix of digits is consumed; what follows it is
    returned.  The next item of the pattern never accepts a digit, so giving
    digits back cannot create a match. *)
Fixpoint skip_digits (s : string) : string :=
  match s with
  | String c rest => if is_digit c then skip_digits rest else s
  | EmptyString => s
  end.

(** [\.?]: one point, if there is one. *)
Definition skip_point (s : string) : string :=
  match s with
  | String "."%char rest => rest
  | _ => s
  end.

(** [/^\d*\.?\d*$/.test(val)] *)
Definition format_test (val : string) : bool :=
  match skip_digits (skip_point (skip_digits val)) with
  | EmptyString => true
  | _ => false
  end.

(** The digits at the head of a string, read as a decimal numeral on top of
    the accumulator: the value, the count of digits read and the rest. *)
Fixpoint read_digits (acc : Z) (count : nat) (s : string) : Z * nat * string :=
  match s with
  | String c rest =>
      if is_digit c then read_digits (10 * acc + digit_value c) (S count) rest
      else (acc, count, s)
  | EmptyString => (acc, count, s)
  end.

(** The number denoted by the digits [m] scaled by [10^-k]. *)
Definition decimal_literal (m : Z) (k : nat) : number :=
  match m with
  | Z.pos p => JS.ratio false p (Z.to_pos (10 ^ Z.of_nat k))
  | _ => JS.zero
  end.

(** [Number(val)] on the strings that reach it in [handleInput], which are
    digits with at most one point: the empty string converts to +0, a
    numeral with at least one digit to the nearest binary64 value, and
    everything else here (a lone point) to NaN.  Strings with a sign, an
    exponent, blanks or letters are refused by the format check before
    [Number] is called; on them this definition answers NaN and is not
    meant to be read as [Number]. *)
Definition Number (val : string) : number :=
  let '(ip, ni, rest) := read_digits 0 0 val in
  match rest with
  | EmptyString => decimal_literal ip 0
  | String "."%char frac =>
      let '(m, nf, rest') := read_digits ip 0 frac in
      match rest' with
      | EmptyString =>
          match ni, nf with
          | O, O => JS.NaN
          | _, _ => decimal_literal m nf
          end
      | _ => JS.NaN
      end
  | _ => JS.NaN
  end.

Module SkillEditRow.

(** The two messages of the row; the first is the answer to input that is
  not a numeral, the second to a value that is not in 0..10. *)
Definition msg_numbers_only : string := "Numbers only".
Definition msg_out_of_range : string := "Value must be 0‚Äì10".

(** The local state of a row. *)
Record RowState : Type := mkRow {
inputValue : string;
error : string
}.

Definition setInputValue (v : string) (st : RowState) : RowState :=
{| inputValue := v; error := error st |}.
Definition setError (e : string) (st : RowState) : RowState :=
{| inputValue := inputValue st; error := e |}.

(** [handleInput]: the new local state, and the argument of the call to
  [onChange] when there is one. *)
Definition handleInput (val : string) (st : RowState) : RowState * option number :=
let st := setInputValue val st in
if negb (format_test val) then (setError msg_numbers_only st, None)
else
  let num := Number val in
  if JS.isNaN num || JS.lt num JS.zero || JS.gt num JS.ten
  then (setError msg_out_of_range st, None)
  else (setError "" st, Some num).

(** The effect of the row,
    [useEffect(() => { setInputValue(skill.score.toString()); }, [skill.score])],
    at a render after the first one: it runs when the score of the record is
    not the same value as at the render before.  [toString] is the
    conversion of a number to a string. *)
Definition scoreEffect (toString : number -> string) (before after : number)
    (st : RowState) : RowState :=
  if JS.same_value before after then st
  else setInputValue (toString after) st.

End SkillEditRow.

(* ================================================================= *)
(** ** [SkillRadarDashboard]: the skill collection *)

(** [type Skill].  The declared type makes every field but [ai_flagged]
    mandatory; the report and the detail view nevertheless test
    [code_snippets] and [timestamps] for presence and [iteration_depth] for
    null, so the model admits their absence. *)
Record Skill : Type := mkSkill {
  skill : string;
  score : number;
  code_snippets : option (list string);
  timestamps : option (list string);
  iteration_depth : option number;
  ai_flagged : option bool
}.

(** [{ ...item, score: s }] *)
Definition with_score (item : Skill) (s : number) : Skill :=
  {| skill := skill item;
     score := s;
     code_snippets := code_snippets item;
     timestamps := timestamps item;
     iteration_depth := iteration_depth item;
     ai_flagged := ai_flagged item |}.

(** The state hooks of the component. *)
Record Dashboard : Type := mkDashboard {
  skills : list Skill;
  selectedSkill : option Skill;
  darkMode : bool;
  loading : bool;
  error : string;
  updatingIdx : option nat
}.

Definition initial : Dashboard :=
  {| skills := []; selectedSkill := None; darkMode := false;
     loading := true; error := ""; updatingIdx := None |}.

Definition setSkills (v : list Skill) (st : Dashboard) : Dashboard :=
  {| skills := v; selectedSkill := selectedSkill st; darkMode := darkMode st;
     loading := loading st; error := error st; updatingIdx := updatingIdx st |}.
Definition setLoading (v : bool) (st : Dashboard) : Dashboard :=
  {| skills := skills st; selectedSkill := selectedSkill st; darkMode := darkMode st;
     loading := v; error := error st; updatingIdx := updatingIdx st |}.
Definition setError (v : string) (st : Dashboard) : Dashboard :=
  {| skills := skills st; selectedSkill := selectedSkill st; darkMode := darkMode st;
     loading := loading st; error := v; updatingIdx := updatingIdx st |}.
Definition setUpdatingIdx (v : option nat) (st : Dashboard) : Dashboard :=
  {| skills := skills st; selectedSkill := selectedSkill st; darkMode := darkMode st;
     loading := loading st; error := error st; updatingIdx := v |}.

(** *** The initial load *)

(** How the promise of [fetchSkills] settles. *)
Inductive Fetched : Type :=
| Resolved (data : list Skill)
| Rejected.

Definition msg_load_failed : string :=
  "Failed to load skills. Please try again later.".

(** The mount effect, run to the end of its [finally] block. *)
Definition loadSkills (outcome : Fetched) (st : Dashboard) : Dashboard :=
  let st := setLoading true st in
  let st := setError "" st in
  let st :=
    match outcome with
    | Resolved data => setSkills data st
    | Rejected => setError msg_load_failed st
    end in
  setLoading false st.

(** The records the mock [fetchSkills] resolves to. *)
Definition fetchSkills_data : list Skill :=
  [ {| skill := "Algorithms";
       score := JS.ratio false 75 10;
       code_snippets := Some ["function add(a, b) { return a + b; }"];
       timestamps := Some ["2025-08-06T13:45Z"; "2025-08-06T14:30Z"];
       iteration_depth := Some (JS.of_Z 3);
       ai_flagged := Some true |};
    {| skill := "Data Structures";
       score := JS.ratio false 82 10;
       code_snippets := Some ["class Stack { constructor() { this.items = []; } }"];
       timestamps := Some ["2025-08-06T11:00Z"; "2025-08-06T12:30Z"];
       iteration_depth := Some (JS.of_Z 2);
       ai_flagged := Some false |};
    {| skill := "System Design";
       score := JS.ratio false 51 10;
       code_snippets := Some [];
       timestamps := Some [];
       iteration_depth := Some (JS.of_Z 4);
       ai_flagged := Some true |} ].

(** *** [handleSkillScoreChange] *)

(** The guard [isNaN(newScore) || newScore < 0 || newScore > 10]. *)
Definition rejected (newScore : number) : bool :=
  JS.isNaN newScore || JS.lt newScore JS.zero || JS.gt newScore JS.ten.

(** [Math.max(0, Math.min(10, newScore))] *)
Definition clamp (newScore : number) : number :=
  JS.Math_max [JS.zero; JS.Math_min [JS.ten; newScore]].

(** The handler.  Past the guard it records the index being updated and
    replaces the record at [idx].  The rows call it with the index of a
    rendered record.  At an index past the end the source would store an
    object that has a score and no other field, which is no [Skill]; the
    model has no result there. *)
Definition handleSkillScoreChange (idx : nat) (newScore : number)
    (st : Dashboard) : option Dashboard :=
  if rejected newScore then Some st
  else
    match skills st !! idx with
    | Some old =>
        Some (setSkills (<[idx := with_score old (clamp newScore)]> (skills st))
                (setUpdatingIdx (Some idx) st))
    | None => None
    end.

(** The timer set by the handler, when it fires. *)
Definition updateTimeout (st : Dashboard) : Dashboard := setUpdatingIdx None st.

(** A run of calls to the handler, each with its index and candidate. *)
Fixpoint scoreChanges (calls : list (nat * number)) (st : Dashboard)
    : option Dashboard :=
  match calls with
  | [] => Some st
  | (idx, newScore) :: calls' =>
      match handleSkillScoreChange idx newScore st with
      | Some st' => scoreChanges calls' st'
      | None => None
      end
  end.

(** Typing [val] into the row rendered for the record at [idx]:
    [handleInput], then the row's [onChange], which is
    [(val) => handleSkillScoreChange(idx, val)], then the render that
    follows, in which the effect of the row sees the score of its record
    before and after. *)
Definition typeIntoRow (numberToString : number -> string)
    (idx : nat) (val : string)
    (row : SkillEditRow.RowState) (st : Dashboard)
    : SkillEditRow.RowState * option Dashboard :=
  match SkillEditRow.handleInput val row with
  | (row', Some num) =>
      match handleSkillScoreChange idx num st with
      | Some st' =>
          (match skills st !! idx, skills st' !! idx with
           | Some before, Some after =>
               SkillEditRow.scoreEffect numberToString
                 (score before) (score after) row'
           | _, _ => row'
           end,
           Some st')
      | None => (row', None)
      end
  | (row', None) => (row', Some st)
  end.

(** *** Selection, theme and what is rendered *)

Definition setSelectedSkill (v : option Skill) (st : Dashboard) : Dashboard :=
  {| skills := skills st; selectedSkill := v; darkMode := darkMode st;
     loading := loading st; error := error st; updatingIdx := updatingIdx st |}.
Definition setDarkMode (v : bool) (st : Dashboard) : Dashboard :=
  {| skills := skills st; selectedSkill := selectedSkill st; darkMode := v;
     loading := loading st; error := error st; updatingIdx := updatingIdx st |}.

(** [handleSkillButtonKeyDown]: on Enter or on the space bar the first
    record with the given name is selected, or nothing when there is none
    ([skills.find(...) || null]); other keys do nothing. *)
Definition handleSkillButtonKeyDown (key : string) (name : string)
    (st : Dashboard) : Dashboard :=
  if String.eqb key "Enter" || String.eqb key " "
  then setSelectedSkill
         (List.find (fun s => String.eqb (skill s) name) (skills st)) st
  else st.

(** The click on the button of a record, and on the close button of the
    detail view. *)
Definition clickSkillButton (d : Skill) (st : Dashboard) : Dashboard :=
  setSelectedSkill (Some d) st.
Definition closeDetails (st : Dashboard) : Dashboard :=
  setSelectedSkill None st.

(** The theme button: [setDarkMode((d) => !d)]. *)
Definition toggleDarkMode (st : Dashboard) : Dashboard :=
  setDarkMode (negb (darkMode st)) st.

(** What the component renders below its heading: the loading notice, the
    error, the notice for an empty collection, or the editor and charts. *)
Inductive View : Type :=
| ViewLoading
| ViewError (msg : string)
| ViewNoSkills
| ViewCharts.

Definition view (st : Dashboard) : View :=
  if loading st then ViewLoading
  else if negb (String.eqb (error st) "") then ViewError (error st)
  else if Nat.eqb (length (skills st)) 0 then ViewNoSkills
  else ViewCharts.

(** [disabled={loading || updatingIdx === idx}] of the row at [idx]. *)
Definition rowDisabled (idx : nat) (st : Dashboard) : bool :=
  loading st
  || match updatingIdx st with Some i => Nat.eqb i idx | None => false end.

(* ================================================================= *)
(** ** The chart projections *)

Module RadarPoint.
Record t : Type := mk { skill : string; score : number }.
End RadarPoint.

Module TrendPoint.
Record t : Type := mk { skill : string; first : number; last : number }.
End TrendPoint.

Definition radarData (skills : list Skill) : list RadarPoint.t :=
  (fun item => {| RadarPoint.skill := skill item;
                  RadarPoint.score := score item |}) <$> skills.

Definition trendData (skills : list Skill) : list TrendPoint.t :=
  (fun item =>
     {| TrendPoint.skill := skill item;
        TrendPoint.first :=
          JS.Math_max [JS.zero;
                       JS.unary_plus (JS.toFixed (JS.sub (score item) JS.one) 2)];
        TrendPoint.last := JS.unary_plus (JS.toFixed (score item) 2) |})
    <$> skills.

(* ================================================================= *)
(** ** [exportPDF] *)

(** The calls made on the jsPDF document, in order. *)
Inductive DocCall : Type :=
| setFontSize (size : Z)
| text (str : string) (x y : Z)
| textMaxWidth (str : string) (x y maxWidth : Z)
| setFont (family style : string)
| setTextColor (r g b : Z)
| addPage
| save (filename : string).

(** What [exportPDF] can reach and change: the component state it closes
    over and its local cursor [y].  The cursor only takes small integer
    values, on which binary64 arithmetic is exact, and is kept as an
    integer. *)
Record World : Type := mkWorld {
  dashboard : Dashboard;
  y : Z
}.

(** A computation reads and writes the world and emits document calls. *)
Definition Export (A : Type) : Type := World -> A * World * list DocCall.

Definition ret {A} (a : A) : Export A := fun w => (a, w, []).

(** The parts of the result of a computation. *)
Definition value {A} (r : A * World * list DocCall) : A := fst (fst r).
Definition world {A} (r : A * World * list DocCall) : World := snd (fst r).
Definition calls {A} (r : A * World * list DocCall) : list DocCall := snd r.

Definition bind {A B} (m : Export A) (k : A -> Export B) : Export B :=
  fun w =>
    let r1 := m w in
    let r2 := k (value r1) (world r1) in
    (value r2, world r2, calls r1 ++ calls r2).

Declare Scope export_scope.
Delimit Scope export_scope with export.
Notation "x <- m ;; k" := (bind m (fun x => k))
  (at level 100, m at next level, right associativity) : export_scope.
Notation "m ;; k" := (bind m (fun _ => k))
  (at level 100, right associativity) : export_scope.
Local Open Scope export_scope.

Definition doc (c : DocCall) : Export unit := fun w => (tt, w, [c]).
Definition get_y : Export Z := fun w => (y w, w, []).
Definition set_y (v : Z) : Export unit :=
  fun w => (tt, {| dashboard := dashboard w; y := v |}, []).
Definition add_y (d : Z) : Export unit := v <- get_y ;; set_y (v + d).
Definition get_skills : Export (list Skill) :=
  fun w => (skills (dashboard w), w, []).
Definition set_dashboard (d : Dashboard) : Export unit :=
  fun w => (tt, {| dashboard := d; y := y w |}, []).

(** [arr.forEach((elem, idx) => ...)] *)
Fixpoint forEach_from {A} (idx : nat) (f : A -> nat -> Export unit)
    (arr : list A) : Export unit :=
  match arr with
  | [] => ret tt
  | elem :: arr' => f elem idx ;; forEach_from (S idx) f arr'
  end.

Definition forEach {A} (f : A -> nat -> Export unit) (arr : list A) : Export unit :=
  forEach_from 0 f arr.

Definition when (b : bool) (m : Export unit) : Export unit :=
  if b then m else ret tt.

(** [arr.join(sep)] *)
Fixpoint join (sep : string) (arr : list string) : string :=
  match arr with
  | [] => ""
  | [s] => s
  | s :: arr' => s +++ sep +++ join sep arr'
  end.

Definition arrow : string := " ‚Üí ".

Section ExportPDF.

(** Conversions of the platform and of jsPDF, left open: a number in a
    template string, [new Date(t).toLocaleString()], and the wrapping of
    a text to a width. *)
Variable numberToString : number -> string.
Variable toLocaleString : string -> string.
Variable splitTextToSize : string -> Z -> list string.

(** The text after "Attempts: ". *)
Definition attempts (item : Skill) : string :=
  match timestamps item with
  | Some (t :: ts) => join arrow (toLocaleString <$> (t :: ts))
  | _ => "N/A"
  end.

(** [item.iteration_depth ?? "N/A"] in the template. *)
Definition depth (item : Skill) : string :=
  match iteration_depth item with
  | Some d => numberToString d
  | None => "N/A"
  end.

(** One title line per radar point. *)
Definition scoreLine (d : RadarPoint.t) (_ : nat) : Export unit :=
  v <- get_y ;;
  doc (text (RadarPoint.skill d +++ ": " +++ numberToString (RadarPoint.score d) +++ "/10") 10 v) ;;
  add_y 8.

(** One wrapped line of a snippet. *)
Definition snippetLine (line : string) (_ : nat) : Export unit :=
  v <- get_y ;;
  doc (text line 14 v) ;;
  add_y 5.

Definition snippet (code : string) (_ : nat) : Export unit :=
  forEach snippetLine (splitTextToSize code 180).

(** The callback of [skills.forEach], up to and including [y += 2]. *)
Definition sectionLines (item : Skill) : Export unit :=
  doc (setFont "helvetica" "bold") ;;
  v <- get_y ;;
  doc (text (skill item +++ " Details") 10 v) ;;
  doc (setFont "helvetica" "normal") ;;
  add_y 6 ;;
  v <- get_y ;;
  doc (text ("Attempts: " +++ attempts item) 12 v) ;;
  add_y 6 ;;
  v <- get_y ;;
  doc (text ("Iteration Depth: " +++ depth item) 12 v) ;;
  add_y 6 ;;
  when (match ai_flagged item with Some true => true | _ => false end)
    (doc (setTextColor 255 0 0) ;;
     v <- get_y ;;
     doc (textMaxWidth "AI/Plagiarism Suspected" 12 v 180) ;;
     doc (setTextColor 0 0 0) ;;
     add_y 6) ;;
  v <- get_y ;;
  doc (text "Code Snippets:" 12 v) ;;
  add_y 6 ;;
  match code_snippets item with
  | Some (c :: cs) => forEach snippet (c :: cs)
  | _ =>
      v <- get_y ;;
      doc (text "N/A" 14 v) ;;
      add_y 6
  end ;;
  add_y 2.

(** The end of the callback:
    [if (y > 270 && idx < skills.length - 1) { doc.addPage(); y = 15; }] *)
Definition pageBreak (idx : nat) : Export unit :=
  v <- get_y ;;
  all <- get_skills ;;
  when ((270 <? v) && (Z.of_nat idx <? Z.of_nat (length all) - 1))
    (doc addPage ;; set_y 15).

Definition section (item : Skill) (idx : nat) : Export unit :=
  sectionLines item ;; pageBreak idx.

Definition exportPDF : Export unit :=
  doc (setFontSize 18) ;;
  doc (text "Skill Radar Report" 10 15) ;;
  doc (setFontSize 12) ;;
  set_y 25 ;;
  all <- get_skills ;;
  forEach scoreLine (radarData all) ;;
  add_y 5 ;;
  forEach section all ;;
  doc (save "skill_report.pdf").

(** The click on "Export PDF": the state after it and the document. *)
Definition clickExport (st : Dashboard) : Dashboard * list DocCall :=
  let r := exportPDF {| dashboard := st; y := 0 |} in
  (dashboard (world r), calls r).

End ExportPDF.

(* ================================================================= *)
(** * Vocabulary of the properties *)

(** The predicates, closed forms and example data the statements below are
    written with.  Nothing here is part of the program. *)

Definition is_finite (x : number) : bool :=
  match x with
  | S754_zero _ | S754_finite _ _ _ => true
  | _ => false
  end.

(** [x] lies in the closed interval from 0 to 10. *)
Definition in_range (x : number) : bool :=
  SFleb JS.zero x && SFleb x JS.ten.

(** The claim of C4 at one input: the input is answered with the message
    for input that is not a numeral. *)
Definition answers_numbers_only (val : string) : Prop :=
  forall row,
    SkillEditRow.error (fst (SkillEditRow.handleInput val row))
    = SkillEditRow.msg_numbers_only.

(** The claim of C5 at one input: the input is answered with the range
    message. *)
Definition answers_out_of_range (val : string) : Prop :=
  forall row,
    SkillEditRow.error (fst (SkillEditRow.handleInput val row))
    = SkillEditRow.msg_out_of_range.

(** Two records of the collection carry the same name. *)
Definition shares_a_name (data : list Skill) : Prop :=
  exists i j a b,
    i <> j /\ data !! i = Some a /\ data !! j = Some b /\ skill a = skill b.

(** The claim of C2 at one load: data with a shared name is refused, with an
    error reported and the collection left as it was. *)
Definition load_refuses_shared_names (data : list Skill) (st : Dashboard) : Prop :=
  shares_a_name data ->
  skills (loadSkills (Resolved data) st) = skills st
  /\ error (loadSkills (Resolved data) st) <> "".

Definition twice_algorithms : list Skill :=
  [ {| skill := "Algorithms"; score := JS.of_Z 7;
       code_snippets := Some []; timestamps := Some [];
       iteration_depth := Some (JS.of_Z 1); ai_flagged := None |};
    {| skill := "Algorithms"; score := JS.of_Z 3;
       code_snippets := Some []; timestamps := Some [];
       iteration_depth := Some (JS.of_Z 2); ai_flagged := None |} ].

(** The claim of C3 at one call: the record ends with the candidate clamped
    into the interval. *)
Definition stores_clamped (idx : nat) (candidate : number) (st : Dashboard) : Prop :=
  forall item,
    skills st !! idx = Some item ->
    exists st',
      handleSkillScoreChange idx candidate st = Some st'
      /\ score <$> skills st' !! idx = Some (clamp candidate).

(** Every score of the collection lies in the interval. *)
Definition scores_in_range (l : list Skill) : Prop :=
  Forall (fun item => in_range (score item) = true) l.

(** [+x.toFixed(2)] *)
Definition round2 (x : number) : number := JS.unary_plus (JS.toFixed x 2).

(** [x] is a zero, an infinity or a finite number of sign [s]. *)
Definition has_sign (s : bool) (x : number) : Prop :=
  match x with
  | S754_zero s' | S754_infinity s' | S754_finite s' _ _ => s' = s
  | S754_nan => False
  end.

(** *** Rounding to two decimals, said without the code

    The real number [m * 2^e] is the fraction [m * up e / down e]. *)
Definition up (e : Z) : Z := 2 ^ Z.max 0 e.
Definition down (e : Z) : Z := 2 ^ Z.max 0 (- e).

(** [n] is the integer nearest to a hundred times [m * 2^e], and the larger
    one when two integers are equally near:
    [n - 1/2 <= 100 * m * 2^e < n + 1/2]. *)
Definition nearest_hundredths (m : positive) (e : Z) (n : Z) : Prop :=
  (2 * n - 1) * down e <= 200 * (Z.pos m * up e) < (2 * n + 1) * down e.

(** The number that the numeral with sign [s], the digits of [n] and the
    last two of them behind the point denotes: the binary64 value nearest
    to [n / 100], and a zero of that sign for [n = 0]. *)
Definition two_decimals (s : bool) (n : Z) : number :=
  match n with
  | Z.pos p => JS.ratio s p 100
  | _ => S754_zero s
  end.

(** [r] is [x] rounded to two decimals.  A finite [x] of magnitude below
    [10^21] gives the number denoted by the nearest multiple of a hundredth,
    with the sign of [x]; a zero gives +0; NaN, the infinities and the
    numbers from [10^21] on, which are integers (lemma
    [large_binary64_is_integer]), are left as they are. *)
Definition rounded_to_2_decimals (x r : number) : Prop :=
  match x with
  | S754_nan | S754_infinity _ => r = x
  | S754_zero _ => r = JS.zero
  | S754_finite s m e =>
      (10 ^ 21 * down e <= Z.pos m * up e -> r = x)
      /\ (Z.pos m * up e < 10 ^ 21 * down e ->
          exists n, 0 <= n /\ nearest_hundredths m e n /\ r = two_decimals s n)
  end.

(** A record whose score has three decimals. *)
Definition three_decimals : list Skill :=
  [ {| skill := "Algorithms"; score := JS.ratio false 7456 1000;
       code_snippets := Some []; timestamps := Some [];
       iteration_depth := Some (JS.of_Z 1); ai_flagged := None |} ].

(** A computation that gives back the component state it was given. *)
Definition frames {A} (m : Export A) : Prop :=
  forall w, dashboard (world (m w)) = dashboard w.

(** Every call a computation emits satisfies [P]. *)
Definition emits {A} (P : DocCall -> Prop) (m : Export A) : Prop :=
  forall w, Forall P (calls (m w)).

Definition not_addPage (c : DocCall) : Prop := c <> addPage.

(** A string of digits only. *)
Fixpoint all_digits (s : string) : bool :=
  match s with
  | String c rest => is_digit c && all_digits rest
  | EmptyString => true
  end.

(** Lines of text at abscissa [x], one every [step] units from [y0] down. *)
Fixpoint textsFrom (x step y0 : Z) (ls : list string) : list DocCall :=
  match ls with
  | [] => []
  | l :: ls' => text l x y0 :: textsFrom x step (y0 + step) ls'
  end.

Definition is_addPage (c : DocCall) : bool :=
  match c with addPage => true | _ => false end.

Definition is_header (c : DocCall) : bool :=
  match c with setFont _ style => String.eqb style "bold" | _ => false end.

Definition is_save (c : DocCall) : bool :=
  match c with save _ => true | _ => false end.

Definition is_text (c : DocCall) : bool :=
  match c with text _ _ _ => true | _ => false end.

Definition count (p : DocCall -> bool) (l : list DocCall) : nat :=
  length (List.filter p l).

(** Conversions used to run the report on an example: the identity on
    dates, one line per snippet, and a fixed text for numbers. *)
Definition demo_number (_ : number) : string := "n".

Definition demo_date (t : string) : string := t.

Definition demo_split (code : string) (_ : Z) : list string := [code].

(** A wrapping that turns every snippet into fifty lines, to run the report
    over more than one page. *)
Definition demo_long_split (code : string) (_ : Z) : list string :=
  replicate 50 code.

(** ** The layout of the report *)

Section ReportSpec.

Variable numberToString : number -> string.
Variable toLocaleString : string -> string.
Variable splitTextToSize : string -> Z -> list string.

#[local] Abbreviation sectionLines' :=
  (sectionLines numberToString toLocaleString splitTextToSize).

(** The calls of one section before its page-break test, and the cursor
    after them, for a section that starts at cursor [y0]. *)
Definition lines (st : Dashboard) (item : Skill) (y0 : Z) : list DocCall :=
  calls (sectionLines' item {| dashboard := st; y := y0 |}).

Definition cursor_after (st : Dashboard) (item : Skill) (y0 : Z) : Z :=
  y (world (sectionLines' item {| dashboard := st; y := y0 |})).

(** The policy: the sections follow one another; after the lines of a
    section, and only there, a page is added when the cursor has passed
    270 and the section is not the last of the [n], and the next section
    then starts at 15. *)
Inductive Paginated (st : Dashboard) (n : nat)
    : nat -> Z -> list Skill -> list DocCall -> Prop :=
| Paginated_end idx y0 : Paginated st n idx y0 [] []
| Paginated_same_page idx y0 item rest tail :
    ~ (270 < cursor_after st item y0 /\ Z.of_nat idx < Z.of_nat n - 1) ->
    Paginated st n (S idx) (cursor_after st item y0) rest tail ->
    Paginated st n idx y0 (item :: rest) (lines st item y0 ++ tail)
| Paginated_new_page idx y0 item rest tail :
    270 < cursor_after st item y0 ->
    Z.of_nat idx < Z.of_nat n - 1 ->
    Paginated st n (S idx) 15 rest tail ->
    Paginated st n idx y0 (item :: rest)
      (lines st item y0 ++ addPage :: tail).

(** The text of the title line of a record. *)
Definition scoreText (item : Skill) : string :=
  skill item +++ ": " +++ numberToString (score item) +++ "/10".

(** The wrapped lines of all the snippets of a record, in order. *)
Definition wrapped (cs : list string) : list string :=
  concat ((fun code => splitTextToSize code 180) <$> cs).

(** The calls of a section, in closed form. *)
Definition sectionCalls (item : Skill) (y0 : Z) : list DocCall :=
  let flagged := match ai_flagged item with Some true => true | _ => false end in
  let yc := if flagged then y0 + 24 else y0 + 18 in
  [ setFont "helvetica" "bold";
    text (skill item +++ " Details") 10 y0;
    setFont "helvetica" "normal";
    text ("Attempts: " +++ attempts toLocaleString item) 12 (y0 + 6);
    text ("Iteration Depth: " +++ depth numberToString item) 12 (y0 + 12) ]
  ++ (if flagged
      then [ setTextColor 255 0 0;
             textMaxWidth "AI/Plagiarism Suspected" 12 (y0 + 18) 180;
             setTextColor 0 0 0 ]
      else [])
  ++ [ text "Code Snippets:" 12 yc ]
  ++ match code_snippets item with
     | Some (c :: cs) => textsFrom 14 5 (yc + 6) (wrapped (c :: cs))
     | _ => [ text "N/A" 14 (yc + 6) ]
     end.

(** The height of a section: what it adds to the cursor. *)
Definition sectionHeight (item : Skill) : Z :=
  26
  + (match ai_flagged item with Some true => 6 | _ => 0 end)
  + match code_snippets item with
    | Some (c :: cs) => 5 * Z.of_nat (length (wrapped (c :: cs)))
    | _ => 6
    end.

(** The sections in closed form: [n] is the number of records, [idx] the
    index of the first record of [arr], [y0] the cursor. *)
Fixpoint sectionsFrom (n idx : nat) (y0 : Z) (arr : list Skill)
    : list DocCall :=
  match arr with
  | [] => []
  | item :: rest =>
      let y1 := y0 + sectionHeight item in
      if (270 <? y1) && (Z.of_nat idx <? Z.of_nat n - 1)
      then sectionCalls item y0 ++ addPage :: sectionsFrom n (S idx) 15 rest
      else sectionCalls item y0 ++ sectionsFrom n (S idx) y1 rest
  end.

(** The whole document in closed form. *)
Definition report (all : list Skill) : list DocCall :=
  [ setFontSize 18; text "Skill Radar Report" 10 15; setFontSize 12 ]
  ++ textsFrom 10 8 25 (scoreText <$> all)
  ++ sectionsFrom (length all) 0 (30 + 8 * Z.of_nat (length all)) all
  ++ [ save "skill_report.pdf" ].

End ReportSpec.

(* ================================================================= *)
(** * Properties *)

(** ** Numbers: comparisons with the bounds *)

Lemma compare_cont_antisym_eq (p q : positive) :
  Pos.compare_cont Eq q p = CompOpp (Pos.compare_cont Eq p q).
Proof. apply (Pos.compare_antisym p q). Qed.

(** The guard of [handleInput] and of [handleSkillScoreChange] refuses
    exactly the numbers outside the interval, NaN among them. *)
Lemma rejected_in_range (x : number) : rejected x = negb (in_range x).
Proof.
  unfold rejected, in_range, JS.lt, JS.gt, SFleb, SFltb.
  destruct x as [s|s| |s m e];
    unfold JS.isNaN, JS.zero, JS.pos_zero, JS.ten, SFcompare.
  1-3: try (destruct s); reflexivity.
  destruct s; [reflexivity|].
  rewrite (Z.compare_antisym e (-49)).
  destruct (e ?= -49); cbv [CompOpp orb negb andb]; try reflexivity.
  rewrite compare_cont_antisym_eq.
  destruct (Pos.compare_cont Eq m 5629499534213120); reflexivity.
Qed.

(** ** The score field of a row *)

Lemma handleInput_unfold (val : string) (row : SkillEditRow.RowState) :
  SkillEditRow.handleInput val row
  = if negb (format_test val)
    then ({| SkillEditRow.inputValue := val;
             SkillEditRow.error := SkillEditRow.msg_numbers_only |}, None)
    else if rejected (Number val)
         then ({| SkillEditRow.inputValue := val;
                  SkillEditRow.error := SkillEditRow.msg_out_of_range |}, None)
         else ({| SkillEditRow.inputValue := val; SkillEditRow.error := "" |},
               Some (Number val)).
Proof. reflexivity. Qed.

(** C1: on the empty string [handleInput] reports no message and calls
    [onChange] with 0; typed into the row of "System Design" after the mock
    load, the empty string replaces the score 5.1 by 0. *)
Theorem handleInput_empty_commits_zero :
  (forall row,
     SkillEditRow.handleInput "" row
     = ({| SkillEditRow.inputValue := ""; SkillEditRow.error := "" |},
        Some JS.zero))
  /\ (let st := loadSkills (Resolved fetchSkills_data) initial in
      score <$> skills st !! 2%nat = Some (JS.ratio false 51 10)
      /\ forall numberToString, exists row' st',
           typeIntoRow numberToString 2 "" (SkillEditRow.mkRow "5.1" "") st
           = (row', Some st')
           /\ SkillEditRow.error row' = ""
           /\ score <$> skills st' !! 2%nat = Some JS.zero).
Proof.
  split; [intros row; vm_compute; reflexivity|].
  split; [vm_compute; reflexivity|].
  intros numberToString.
  eexists _, _. split; [vm_compute; reflexivity|].
  split; vm_compute; reflexivity.
Qed.

(** The lone point passes the format check and converts to NaN, and is
    answered with the range message. *)
Lemma lone_point_not_numbers_only :
  format_test "." = true
  /\ is_finite (Number ".") = false
  /\ ~ answers_numbers_only ".".
Proof.
  split; [reflexivity|]. split; [reflexivity|].
  intros H. specialize (H (SkillEditRow.mkRow "" "")).
  vm_compute in H. discriminate H.
Qed.

(** C4, amended: an input that passes the format check and converts to NaN
    or to an infinity is answered with the range message, and [onChange] is
    not called. *)
Theorem handleInput_not_finite (val : string) (row : SkillEditRow.RowState) :
  format_test val = true ->
  is_finite (Number val) = false ->
  SkillEditRow.handleInput val row
  = ({| SkillEditRow.inputValue := val;
        SkillEditRow.error := SkillEditRow.msg_out_of_range |}, None).
Proof.
  intros Hfmt Hfin. rewrite handleInput_unfold, Hfmt.
  destruct (Number val) as [s|s| |s m e]; try discriminate Hfin.
  - destruct s; reflexivity.
  - reflexivity.
Qed.

Lemma handleInput_not_finite_witness :
  SkillEditRow.handleInput "." (SkillEditRow.mkRow "5.1" "")
  = ({| SkillEditRow.inputValue := ".";
        SkillEditRow.error := SkillEditRow.msg_out_of_range |}, None).
Proof.
  apply (handleInput_not_finite "." (SkillEditRow.mkRow "5.1" ""));
    reflexivity.
Defined.

(** "-1" is stopped by the format check and gets the other message. *)
Lemma minus_one_not_out_of_range : ~ answers_out_of_range "-1".
Proof.
  intros H. specialize (H (SkillEditRow.mkRow "" "")).
  vm_compute in H. discriminate H.
Qed.

(** C5, amended: an input that passes the format check and whose value is
    below 0 or above 10, such as "10.5", is answered with the range message
    and not committed; "-1" does not pass the format check and is answered
    with "Numbers only"; the bounds "0" and "10" are committed. *)
Theorem handleInput_out_of_range (val : string) (row : SkillEditRow.RowState) :
  format_test val = true ->
  JS.lt (Number val) JS.zero || JS.gt (Number val) JS.ten = true ->
  SkillEditRow.handleInput val row
  = ({| SkillEditRow.inputValue := val;
        SkillEditRow.error := SkillEditRow.msg_out_of_range |}, None)
  /\ SkillEditRow.handleInput "10.5" row
     = ({| SkillEditRow.inputValue := "10.5";
           SkillEditRow.error := SkillEditRow.msg_out_of_range |}, None)
  /\ SkillEditRow.handleInput "-1" row
     = ({| SkillEditRow.inputValue := "-1";
           SkillEditRow.error := SkillEditRow.msg_numbers_only |}, None)
  /\ SkillEditRow.handleInput "0" row
     = ({| SkillEditRow.inputValue := "0"; SkillEditRow.error := "" |},
        Some JS.zero)
  /\ SkillEditRow.handleInput "10" row
     = ({| SkillEditRow.inputValue := "10"; SkillEditRow.error := "" |},
        Some JS.ten).
Proof.
  intros Hfmt Hout. split.
  - rewrite handleInput_unfold, Hfmt. unfold rejected.
    rewrite <- orb_assoc, Hout, orb_true_r. reflexivity.
  - repeat split; vm_compute; reflexivity.
Qed.

Lemma handleInput_out_of_range_witness :
  SkillEditRow.handleInput "12" (SkillEditRow.mkRow "5.1" "")
  = ({| SkillEditRow.inputValue := "12";
        SkillEditRow.error := SkillEditRow.msg_out_of_range |}, None).
Proof.
  apply (handleInput_out_of_range "12" (SkillEditRow.mkRow "5.1" ""));
    vm_compute; reflexivity.
Defined.

(** ** The initial load *)

(** Two records named "Algorithms" are installed as they come. *)
Lemma load_installs_shared_names :
  ~ load_refuses_shared_names twice_algorithms initial.
Proof.
  intros H. destruct H as [Hskills _].
  - exists 0%nat, 1%nat. eexists _, _.
    split; [discriminate|]. repeat split; reflexivity.
  - discriminate Hskills.
Qed.

(** C2, amended: a resolved fetch installs the fetched records as they are,
    whatever their names, with no error; a rejected fetch leaves the
    collection as it was and reports the load error.  Either way the
    loading flag is cleared. *)
Theorem loadSkills_installs (st : Dashboard) :
  (forall data,
     skills (loadSkills (Resolved data) st) = data
     /\ error (loadSkills (Resolved data) st) = ""
     /\ loading (loadSkills (Resolved data) st) = false)
  /\ skills (loadSkills Rejected st) = skills st
  /\ error (loadSkills Rejected st) = msg_load_failed
  /\ loading (loadSkills Rejected st) = false.
Proof. repeat split. Qed.

(** ** [handleSkillScoreChange] *)

Lemma Math_min_pair (a b : number) :
  JS.isNaN a = false -> JS.isNaN b = false ->
  JS.Math_min [a; b] = JS.min_step (JS.min_step JS.pos_infinity a) b.
Proof.
  intros Ha Hb. unfold JS.Math_min. cbn [existsb fold_left].
  rewrite Ha, Hb. reflexivity.
Qed.

Lemma Math_max_pair (a b : number) :
  JS.isNaN a = false -> JS.isNaN b = false ->
  JS.Math_max [a; b] = JS.max_step (JS.max_step JS.neg_infinity a) b.
Proof.
  intros Ha Hb. unfold JS.Math_max. cbn [existsb fold_left].
  rewrite Ha, Hb. reflexivity.
Qed.

Lemma Math_max_nan_r (a : number) : JS.Math_max [a; JS.NaN] = JS.NaN.
Proof.
  unfold JS.Math_max. cbn [existsb]. unfold JS.NaN at 1. cbn [JS.isNaN].
  rewrite orb_true_r. reflexivity.
Qed.

(** Past the guard the clamp changes nothing but the sign of a zero. *)
Lemma clamp_accepted (c : number) :
  rejected c = false ->
  clamp c = if JS.is_neg_zero c then JS.zero else c.
Proof.
  intros Hc. destruct c as [s|s| |s m e].
  - destruct s; reflexivity.
  - destruct s; discriminate Hc.
  - discriminate Hc.
  - destruct s; [discriminate Hc|].
    unfold clamp.
    rewrite (Math_min_pair JS.ten (S754_finite false m e)) by reflexivity.
    change (JS.min_step JS.pos_infinity JS.ten) with JS.ten.
    unfold rejected in Hc. apply orb_false_elim in Hc as [_ Hgt].
    unfold JS.gt, SFltb, JS.ten, SFcompare in Hgt.
    unfold JS.min_step, JS.lt, SFltb, JS.ten, SFcompare.
    cbv [andb JS.is_neg_zero].
    rewrite (Z.compare_antisym e (-49)) in Hgt.
    destruct (e ?= -49) eqn:He; cbv [CompOpp] in Hgt; try discriminate Hgt.
    + rewrite compare_cont_antisym_eq in Hgt.
      destruct (Pos.compare_cont Eq m 5629499534213120) eqn:Hm;
        cbv [CompOpp] in Hgt; try discriminate Hgt.
      * apply Pos.compare_eq in Hm. apply Z.compare_eq in He. subst m e.
        reflexivity.
      * rewrite Math_max_pair by reflexivity. reflexivity.
    + rewrite Math_max_pair by reflexivity. reflexivity.
Qed.

Lemma accepted_not_nan (c : number) : rejected c = false -> JS.isNaN c = false.
Proof. destruct c; try reflexivity. discriminate. Qed.

Lemma SFeqb_refl (c : number) : JS.isNaN c = false -> SFeqb c c = true.
Proof.
  destruct c as [s|s| |s m e]; try discriminate; intros _;
    unfold SFeqb, SFcompare.
  - reflexivity.
  - destruct s; reflexivity.
  - rewrite Z.compare_refl.
    change (Pos.compare_cont Eq m m) with (Pos.compare m m).
    rewrite Pos.compare_refl. destruct s; reflexivity.
Qed.

Lemma clamp_in_range (c : number) :
  rejected c = false -> in_range (clamp c) = true.
Proof.
  intros Hc. rewrite (clamp_accepted c Hc).
  destruct (JS.is_neg_zero c); [reflexivity|].
  rewrite rejected_in_range in Hc. now apply negb_false_iff in Hc.
Qed.

Lemma clamp_same_value (c : number) :
  rejected c = false -> SFeqb (clamp c) c = true.
Proof.
  intros Hc. rewrite (clamp_accepted c Hc).
  destruct c as [[|]|[|]| |s m e]; try reflexivity; try discriminate Hc.
  apply (SFeqb_refl (S754_finite s m e)). reflexivity.
Qed.

(** The candidates 11 and -1 clamp to 10 and to 0, and leave the score 7.5
    of "Algorithms" in place. *)
Lemma candidates_outside_not_stored :
  let st := loadSkills (Resolved fetchSkills_data) initial in
  clamp (JS.of_Z 11) = JS.ten
  /\ clamp (JS.of_Z (-1)) = JS.zero
  /\ ~ stores_clamped 0 (JS.of_Z 11) st
  /\ ~ stores_clamped 0 (JS.of_Z (-1)) st.
Proof.
  split; [reflexivity|]. split; [reflexivity|].
  split; intros H; destruct (H _ eq_refl) as (st' & Hrun & Hscore);
    vm_compute in Hrun; injection Hrun as <-;
    vm_compute in Hscore; discriminate Hscore.
Qed.

(** C3, amended: for an existing record, a candidate inside the interval
    replaces the score of that record and of no other; the stored value is
    the clamped candidate, which lies in the interval and equals the
    candidate.  A candidate above 10, below 0 or NaN changes nothing: the
    state after the call is the state before it. *)
Theorem handleSkillScoreChange_existing
    (idx : nat) (candidate : number) (st : Dashboard) (item : Skill) :
  skills st !! idx = Some item ->
  (rejected candidate = false ->
     exists st',
       handleSkillScoreChange idx candidate st = Some st'
       /\ skills st' !! idx = Some (with_score item (clamp candidate))
       /\ (forall j, j <> idx -> skills st' !! j = skills st !! j)
       /\ in_range (clamp candidate) = true
       /\ SFeqb (clamp candidate) candidate = true)
  /\ (JS.gt candidate JS.ten = true \/ JS.lt candidate JS.zero = true
      \/ JS.isNaN candidate = true ->
      handleSkillScoreChange idx candidate st = Some st).
Proof.
  intros Hitem. split.
  - intros Hc. unfold handleSkillScoreChange. rewrite Hc, Hitem.
    eexists. split; [reflexivity|]. cbn [skills setSkills].
    split; [|split; [|split]].
    + apply list_lookup_insert_eq. now apply lookup_lt_Some in Hitem.
    + intros j Hj. now apply list_lookup_insert_ne.
    + now apply clamp_in_range.
    + now apply clamp_same_value.
  - intros H. unfold handleSkillScoreChange.
    replace (rejected candidate) with true; [reflexivity|].
    unfold rejected. destruct H as [H|[H|H]]; rewrite H;
      now rewrite ?orb_true_r.
Qed.

Lemma handleSkillScoreChange_existing_witness :
  exists st',
    handleSkillScoreChange 2 (JS.ratio false 63 10)
      (loadSkills (Resolved fetchSkills_data) initial) = Some st'
    /\ score <$> skills st' !! 2%nat = Some (JS.ratio false 63 10).
Proof.
  destruct (handleSkillScoreChange_existing 2 (JS.ratio false 63 10)
              (loadSkills (Resolved fetchSkills_data) initial) _ eq_refl)
    as [Hin _].
  destruct (Hin eq_refl) as (st' & Hrun & Hidx & _).
  exists st'. split; [exact Hrun|]. rewrite Hidx. vm_compute. reflexivity.
Defined.

Lemma handleSkillScoreChange_rejected (idx : nat) (c : number) (st : Dashboard) :
  rejected c = true -> handleSkillScoreChange idx c st = Some st.
Proof. intros Hc. unfold handleSkillScoreChange. now rewrite Hc. Qed.

Lemma handleSkillScoreChange_keeps_range (idx : nat) (c : number) (st : Dashboard) :
  scores_in_range (skills st) ->
  (idx < length (skills st))%nat ->
  exists st',
    handleSkillScoreChange idx c st = Some st'
    /\ scores_in_range (skills st')
    /\ length (skills st') = length (skills st).
Proof.
  intros Hinv Hidx. unfold handleSkillScoreChange.
  destruct (rejected c) eqn:Hc.
  - exists st. auto.
  - destruct (lookup_lt_is_Some_2 _ _ Hidx) as [old Hold]. rewrite Hold.
    eexists. split; [reflexivity|]. cbn [skills setSkills]. split.
    + apply Forall_insert; [exact Hinv|]. now apply clamp_in_range.
    + apply length_insert.
Qed.

Lemma scoreChanges_keep_range_aux (calls : list (nat * number)) :
  forall st,
    scores_in_range (skills st) ->
    Forall (fun call => (fst call < length (skills st))%nat) calls ->
    exists st',
      scoreChanges calls st = Some st'
      /\ scores_in_range (skills st')
      /\ length (skills st') = length (skills st).
Proof.
  induction calls as [|[idx c] calls IH]; intros st Hinv Hidx.
  - exists st. auto.
  - apply Forall_cons in Hidx as [Hhd Htl]. cbn [fst] in Hhd.
    destruct (handleSkillScoreChange_keeps_range idx c st Hinv Hhd)
      as (st1 & Hstep & Hinv1 & Hlen1).
    cbn [scoreChanges]. rewrite Hstep.
    destruct (IH st1 Hinv1) as (st' & Hrun & Hinv' & Hlen').
    + now rewrite Hlen1.
    + exists st'. split; [exact Hrun|]. split; [exact Hinv'|]. congruence.
Qed.

(** C6: starting from scores in the interval, after every run of calls to
    the handler on rendered records, and after every initial part of such a
    run, all scores lie in the interval, whatever the candidates were.  A
    candidate refused by the guard, such as NaN, -0.01 or 10.01, leaves the
    whole state as it was. *)
Theorem scoreChanges_keep_range (calls : list (nat * number)) (st : Dashboard) :
  scores_in_range (skills st) ->
  Forall (fun call => (fst call < length (skills st))%nat) calls ->
  (forall n, exists st',
      scoreChanges (take n calls) st = Some st'
      /\ scores_in_range (skills st'))
  /\ (forall idx c,
        rejected c = true -> handleSkillScoreChange idx c st = Some st)
  /\ (forall idx,
        handleSkillScoreChange idx JS.NaN st = Some st
        /\ handleSkillScoreChange idx (JS.ratio true 1 100) st = Some st
        /\ handleSkillScoreChange idx (JS.ratio false 1001 100) st = Some st).
Proof.
  intros Hinv Hidx. split; [|split].
  - intros n.
    destruct (scoreChanges_keep_range_aux (take n calls) st Hinv)
      as (st' & Hrun & Hinv' & _).
    + now apply Forall_take.
    + exists st'. auto.
  - intros idx c. apply handleSkillScoreChange_rejected.
  - intros idx. repeat split; apply handleSkillScoreChange_rejected;
      vm_compute; reflexivity.
Qed.

Lemma scoreChanges_keep_range_witness :
  exists st',
    scoreChanges
      (take 4 [(2%nat, JS.NaN); (0%nat, JS.ratio false 1001 100);
               (2%nat, JS.ratio false 63 10); (1%nat, JS.ratio true 1 100)])
      (loadSkills (Resolved fetchSkills_data) initial) = Some st'
    /\ scores_in_range (skills st').
Proof.
  refine (proj1 (scoreChanges_keep_range _ _ _ _) 4%nat).
  - repeat constructor.
  - repeat constructor.
Defined.

(** ** Rounding to two decimals *)

Lemma shr_1_nonneg (mrs : shr_record) :
  0 <= shr_m mrs -> 0 <= shr_m (shr_1 mrs).
Proof.
  destruct mrs as [m r s]. cbn [shr_m]. intros Hm.
  destruct m as [|p|p]; [| |lia]; cbn [shr_1 shr_m]; [lia|].
  destruct p; cbn [shr_m]; lia.
Qed.

Lemma iter_pos_shr_1_nonneg (p : positive) :
  forall mrs, 0 <= shr_m mrs -> 0 <= shr_m (SpecFloat.iter_pos shr_1 p mrs).
Proof.
  induction p as [p IH|p IH|]; intros mrs Hm; cbn [SpecFloat.iter_pos].
  - apply IH, IH, shr_1_nonneg, Hm.
  - apply IH, IH, Hm.
  - apply shr_1_nonneg, Hm.
Qed.

Lemma shr_fexp_nonneg (m e : Z) (l : location) :
  0 <= m -> 0 <= shr_m (fst (shr_fexp JS.prec JS.emax m e l)).
Proof.
  intros Hm. unfold shr_fexp, shr.
  assert (Hrec : 0 <= shr_m (shr_record_of_loc m l))
    by (destruct l as [|[| |]]; exact Hm).
  destruct (fexp JS.prec JS.emax (Zdigits2 m + e) - e); cbn [fst];
    auto using iter_pos_shr_1_nonneg.
Qed.

Lemma round_nearest_even_nonneg (m : Z) (l : location) :
  0 <= m -> 0 <= round_nearest_even m l.
Proof.
  intros Hm. destruct l as [|[| |]]; cbn [round_nearest_even]; try lia.
  destruct (Z.even m); lia.
Qed.

Lemma binary_round_aux_sign (s : bool) (m e : Z) (l : location) :
  0 <= m -> has_sign s (binary_round_aux JS.prec JS.emax s m e l).
Proof.
  intros Hm. unfold binary_round_aux.
  pose proof (shr_fexp_nonneg m e l Hm) as H1.
  destruct (shr_fexp JS.prec JS.emax m e l) as [mrs' e'].
  cbn [fst] in H1.
  pose proof (shr_fexp_nonneg _ e' loc_Exact
                (round_nearest_even_nonneg _ (loc_of_shr_record mrs') H1)) as H2.
  destruct (shr_fexp JS.prec JS.emax
              (round_nearest_even (shr_m mrs') (loc_of_shr_record mrs')) e'
              loc_Exact) as [mrs'' e''].
  cbn [fst] in H2.
  destruct (shr_m mrs'') as [|p|p]; [reflexivity| |lia].
  destruct (e'' <=? JS.emax - JS.prec); reflexivity.
Qed.

(** The nearest binary64 value of a quotient keeps the sign it is given. *)
Lemma ratio_sign (neg : bool) (m d : positive) : has_sign neg (JS.ratio neg m d).
Proof.
  unfold JS.ratio, SFdiv, SFdiv_core_binary.
  set (e' := Z.min _ _). set (m' := match (0 - 0 - e') with Z0 => _ | _ => _ end).
  assert (Hm' : 0 <= m').
  { subst m'. destruct (0 - 0 - e'); try lia. apply Z.shiftl_nonneg. lia. }
  pose proof (Z.div_pos m' (Z.pos d) Hm' ltac:(lia)) as Hq.
  unfold Z.div in Hq.
  destruct (Z.div_eucl m' (Z.pos d)) as [q r].
  rewrite xorb_false_r. now apply binary_round_aux_sign.
Qed.

Lemma round2_sign (s : bool) (m : positive) (e : Z) :
  JS.at_least_1e21 m e = false ->
  has_sign s (round2 (S754_finite s m e)).
Proof.
  intros Hbig. unfold round2, JS.toFixed. rewrite Hbig. cbn [JS.unary_plus].
  destruct (JS.nearest_scaled m e 2); try reflexivity. apply ratio_sign.
Qed.

Lemma Math_max_zero_negative (x : number) :
  has_sign true x -> JS.Math_max [JS.zero; x] = JS.zero.
Proof.
  destruct x as [s|s| |s m e]; cbn [has_sign]; intros H; try contradiction;
    subst s; reflexivity.
Qed.

Lemma Math_max_zero_positive (x : number) :
  has_sign false x -> JS.Math_max [JS.zero; x] = x.
Proof.
  destruct x as [s|s| |s m e]; cbn [has_sign]; intros H; try contradiction;
    subst s; reflexivity.
Qed.

(** Rounding and the lower bound commute: [Math.max(0, +d.toFixed(2))] is
    [+Math.max(0, d).toFixed(2)]. *)
Lemma max_round2_commute (d : number) :
  JS.Math_max [JS.zero; round2 d] = round2 (JS.Math_max [JS.zero; d]).
Proof.
  destruct d as [s|s| |s m e].
  - destruct s; reflexivity.
  - destruct s; reflexivity.
  - reflexivity.
  - destruct (JS.at_least_1e21 m e) eqn:Hbig.
    + assert (Hr : round2 (S754_finite s m e) = S754_finite s m e).
      { unfold round2, JS.toFixed. now rewrite Hbig. }
      rewrite Hr. destruct s.
      * rewrite Math_max_zero_negative by reflexivity. reflexivity.
      * rewrite (Math_max_zero_positive (S754_finite false m e)) by reflexivity.
        now rewrite Hr.
    + pose proof (round2_sign s m e Hbig) as Hs. destruct s.
      * rewrite (Math_max_zero_negative _ Hs).
        rewrite Math_max_zero_negative by reflexivity. reflexivity.
      * rewrite (Math_max_zero_positive _ Hs).
        now rewrite (Math_max_zero_positive (S754_finite false m e)).
Qed.

(** ** The chart projections *)

(** *** [round2] rounds *)

Lemma up_down_nonneg_exponent (e : Z) : 0 <= e -> up e = 2 ^ e /\ down e = 1.
Proof.
  intros He. unfold up, down.
  rewrite (Z.max_r 0 e) by lia. rewrite (Z.max_l 0 (- e)) by lia. auto.
Qed.

Lemma up_down_negative_exponent (e : Z) :
  e < 0 -> up e = 1 /\ down e = 2 ^ (- e).
Proof.
  intros He. unfold up, down.
  rewrite (Z.max_l 0 e) by lia. rewrite (Z.max_r 0 (- e)) by lia. auto.
Qed.

Lemma at_least_1e21_spec (m : positive) (e : Z) :
  JS.at_least_1e21 m e = (10 ^ 21 * down e <=? Z.pos m * up e).
Proof.
  unfold JS.at_least_1e21. destruct (0 <=? e) eqn:He.
  - apply Z.leb_le in He.
    destruct (up_down_nonneg_exponent e He) as [-> ->].
    now rewrite Z.mul_1_r.
  - apply Z.leb_gt in He.
    destruct (up_down_negative_exponent e He) as [-> ->].
    now rewrite Z.mul_1_r.
Qed.

(** The integer that [toFixed] picks is the nearest one. *)
Lemma nearest_scaled_spec (m : positive) (e : Z) :
  0 <= JS.nearest_scaled m e 2
  /\ nearest_hundredths m e (JS.nearest_scaled m e 2).
Proof.
  unfold JS.nearest_scaled, nearest_hundredths.
  change (10 ^ Z.of_nat 2) with 100.
  destruct (0 <=? e) eqn:He.
  - apply Z.leb_le in He.
    destruct (up_down_nonneg_exponent e He) as [-> ->].
    assert (0 < 2 ^ e) by (apply Z.pow_pos_nonneg; lia). nia.
  - apply Z.leb_gt in He.
    destruct (up_down_negative_exponent e He) as [-> ->].
    assert (Hd : 0 < 2 ^ (- e)) by (apply Z.pow_pos_nonneg; lia).
    replace (1 - e) with (Z.succ (- e)) by lia.
    rewrite Z.pow_succ_r by lia.
    set (D := 2 ^ (- e)) in *.
    pose proof (Z.div_mod (2 * (Z.pos m * 100) + D) (2 * D) ltac:(lia)) as Hdiv.
    pose proof (Z.mod_pos_bound (2 * (Z.pos m * 100) + D) (2 * D) ltac:(lia))
      as Hmod.
    set (n := (2 * (Z.pos m * 100) + D) / (2 * D)) in *.
    split; [|nia].
    apply Z.div_pos; lia.
Qed.

(** At most one integer is the nearest one. *)
Lemma nearest_hundredths_unique (m : positive) (e n1 n2 : Z) :
  nearest_hundredths m e n1 -> nearest_hundredths m e n2 -> n1 = n2.
Proof.
  unfold nearest_hundredths. intros H1 H2.
  assert (0 < down e) by (apply Z.pow_pos_nonneg; lia). nia.
Qed.

(** [+x.toFixed(2)] is [x] rounded to two decimals. *)
Lemma round2_rounds (x : number) : rounded_to_2_decimals x (round2 x).
Proof.
  destruct x as [s|s| |s m e]; cbn [rounded_to_2_decimals]; try reflexivity.
  unfold round2, JS.toFixed. rewrite at_least_1e21_spec.
  destruct (10 ^ 21 * down e <=? Z.pos m * up e) eqn:Hbig.
  - apply Z.leb_le in Hbig. split; [reflexivity|lia].
  - apply Z.leb_gt in Hbig. split; [lia|]. intros _.
    exists (JS.nearest_scaled m e 2).
    destruct (nearest_scaled_spec m e) as [Hn Hnear].
    split; [exact Hn|]. split; [exact Hnear|]. reflexivity.
Qed.

Lemma digits2_pos_bound (m : positive) : Z.pos m < 2 ^ Z.pos (digits2_pos m).
Proof.
  induction m as [m IH|m IH|]; cbn [digits2_pos];
    rewrite ?Pos2Z.inj_succ, ?Z.pow_succ_r by lia; lia.
Qed.

(** A binary64 number of magnitude [10^21] or more is an integer, so that
    leaving it as it is rounds it. *)
Lemma large_binary64_is_integer (s : bool) (m : positive) (e : Z) :
  valid_binary JS.prec JS.emax (S754_finite s m e) = true ->
  10 ^ 21 * down e <= Z.pos m * up e ->
  0 <= e.
Proof.
  cbn [valid_binary]. unfold bounded, canonical_mantissa, fexp.
  intros [Hcan _]%andb_true_iff Hbig. apply Z.eqb_eq in Hcan.
  destruct (Z.le_gt_cases 0 e) as [He|He]; [exact He|exfalso].
  destruct (up_down_negative_exponent e He) as [Hup Hdown].
  rewrite Hup, Hdown in Hbig.
  pose proof (digits2_pos_bound m) as Hm.
  assert (Hdig : Z.pos (digits2_pos m) <= 53) by (unfold JS.prec in Hcan; lia).
  assert (H53 : 2 ^ Z.pos (digits2_pos m) <= 2 ^ 53)
    by (apply Z.pow_le_mono_r; lia).
  assert (Hpow : 2 <= 2 ^ (- e)).
  { change 2 with (2 ^ 1) at 1. apply Z.pow_le_mono_r; lia. }
  assert (H21 : 2 ^ 53 < 10 ^ 21) by reflexivity.
  nia.
Qed.

Lemma sub_one_of_zero (s : bool) :
  JS.sub (S754_zero s) JS.one = S754_finite true 4503599627370496 (-52).
Proof. reflexivity. Qed.

(** C8: the trend point of a record has [last] equal to the score rounded
    to two decimals and [first] equal to the larger of 0 and the score
    minus 1, rounded to two decimals, where rounding is the relation
    [rounded_to_2_decimals]; [first] is never below 0 and never -0, and it
    is 0 for a score of 0. *)
Theorem trendData_first_last (l : list Skill) (i : nat) (item : Skill) :
  l !! i = Some item ->
  exists tp,
    trendData l !! i = Some tp
    /\ TrendPoint.skill tp = skill item
    /\ rounded_to_2_decimals (score item) (TrendPoint.last tp)
    /\ rounded_to_2_decimals
         (JS.Math_max [JS.zero; JS.sub (score item) JS.one])
         (TrendPoint.first tp)
    /\ TrendPoint.last tp = round2 (score item)
    /\ TrendPoint.first tp
       = round2 (JS.Math_max [JS.zero; JS.sub (score item) JS.one])
    /\ JS.lt (TrendPoint.first tp) JS.zero = false
    /\ JS.is_neg_zero (TrendPoint.first tp) = false
    /\ (forall s, score item = S754_zero s -> TrendPoint.first tp = JS.zero).
Proof.
  intros Hitem. unfold trendData. rewrite list_lookup_fmap, Hitem.
  eexists. split; [reflexivity|]. cbn [TrendPoint.skill TrendPoint.last
                                      TrendPoint.first].
  split; [reflexivity|].
  fold (round2 (score item)). fold (round2 (JS.sub (score item) JS.one)).
  split; [apply round2_rounds|].
  split; [rewrite max_round2_commute; apply round2_rounds|].
  split; [reflexivity|].
  split; [apply max_round2_commute|].
  set (r := round2 (JS.sub (score item) JS.one)).
  assert (Hmax : JS.Math_max [JS.zero; r] = JS.NaN
                 \/ has_sign false (JS.Math_max [JS.zero; r])).
  { destruct r as [s|s| |s m e].
    - right. destruct s; reflexivity.
    - right. destruct s; reflexivity.
    - left. reflexivity.
    - right. destruct s; reflexivity. }
  split; [|split].
  - destruct Hmax as [-> | Hs]; [reflexivity|].
    destruct (JS.Math_max [JS.zero; r]) as [s|s| |s m e];
      cbn [has_sign] in Hs; try contradiction; subst s; reflexivity.
  - destruct Hmax as [-> | Hs]; [reflexivity|].
    destruct (JS.Math_max [JS.zero; r]) as [s|s| |s m e];
      cbn [has_sign] in Hs; try contradiction; subst s; reflexivity.
  - intros s Hzero. subst r. rewrite Hzero, sub_one_of_zero. reflexivity.
Qed.

(** The score 7.456 is shown as 7.46, with 6.46 before it. *)
Lemma trendData_first_last_witness :
  exists tp,
    trendData three_decimals !! 0%nat = Some tp
    /\ TrendPoint.first tp = JS.ratio false 646 100
    /\ TrendPoint.last tp = JS.ratio false 746 100.
Proof.
  destruct (trendData_first_last three_decimals 0 _ eq_refl)
    as (tp & Htp & _ & _ & _ & Hlast & Hfirst & _).
  exists tp. split; [exact Htp|]. split.
  - rewrite Hfirst. vm_compute. reflexivity.
  - rewrite Hlast. vm_compute. reflexivity.
Defined.

(** C9: on the empty snapshot both projections are empty; on any snapshot
    they have one point per record, in the order of the records, and the
    radar point of a record carries its name and its score. *)
Theorem projections_follow_snapshot (l : list Skill) :
  radarData [] = []
  /\ trendData [] = []
  /\ length (radarData l) = length l
  /\ length (trendData l) = length l
  /\ (forall i,
        radarData l !! i
        = (fun item => {| RadarPoint.skill := skill item;
                          RadarPoint.score := score item |}) <$> l !! i)
  /\ (forall i, TrendPoint.skill <$> trendData l !! i = skill <$> l !! i).
Proof.
  split; [reflexivity|]. split; [reflexivity|].
  unfold radarData, trendData. rewrite !length_fmap.
  split; [reflexivity|]. split; [reflexivity|]. split.
  - intros i. apply list_lookup_fmap.
  - intros i. rewrite list_lookup_fmap. now destruct (l !! i).
Qed.

(** ** The report *)

Lemma bind_run {A B} (m : Export A) (k : A -> Export B) (w : World) :
  bind m k w
  = (value (k (value (m w)) (world (m w))),
     world (k (value (m w)) (world (m w))),
     calls (m w) ++ calls (k (value (m w)) (world (m w)))).
Proof. reflexivity. Qed.

Lemma world_bind {A B} (m : Export A) (k : A -> Export B) (w : World) :
  world (bind m k w) = world (k (value (m w)) (world (m w))).
Proof. now rewrite bind_run. Qed.

Lemma calls_bind {A B} (m : Export A) (k : A -> Export B) (w : World) :
  calls (bind m k w) = calls (m w) ++ calls (k (value (m w)) (world (m w))).
Proof. now rewrite bind_run. Qed.

(** *** The report leaves the component state alone *)

Lemma frames_ret {A} (a : A) : frames (ret a).
Proof. intros w. reflexivity. Qed.

Lemma frames_bind {A B} (m : Export A) (k : A -> Export B) :
  frames m -> (forall a, frames (k a)) -> frames (bind m k).
Proof. intros Hm Hk w. rewrite world_bind, Hk. apply Hm. Qed.

Lemma frames_doc (c : DocCall) : frames (doc c).
Proof. intros w. reflexivity. Qed.

Lemma frames_get_y : frames get_y.
Proof. intros w. reflexivity. Qed.

Lemma frames_set_y (v : Z) : frames (set_y v).
Proof. intros w. reflexivity. Qed.

Lemma frames_add_y (d : Z) : frames (add_y d).
Proof. intros w. reflexivity. Qed.

Lemma frames_get_skills : frames get_skills.
Proof. intros w. reflexivity. Qed.

Lemma frames_when (b : bool) (m : Export unit) : frames m -> frames (when b m).
Proof. intros Hm. destruct b; [exact Hm|apply frames_ret]. Qed.

Lemma frames_forEach_from {A} (f : A -> nat -> Export unit) (arr : list A) :
  (forall a i, frames (f a i)) -> forall idx, frames (forEach_from idx f arr).
Proof.
  intros Hf. induction arr as [|a arr IH]; intros idx; cbn [forEach_from].
  - apply frames_ret.
  - apply frames_bind; [apply Hf|intros _; apply IH].
Qed.

Lemma frames_forEach {A} (f : A -> nat -> Export unit) (arr : list A) :
  (forall a i, frames (f a i)) -> frames (forEach f arr).
Proof. intros Hf. now apply frames_forEach_from. Qed.

Ltac frame :=
  repeat match goal with
    | |- frames (bind _ _) => apply frames_bind; [|intros ?]
    | |- frames (forEach _ _) => apply frames_forEach; intros ? ?
    | |- frames (when _ _) => apply frames_when
    | |- frames (ret _) => apply frames_ret
    | |- frames (doc _) => apply frames_doc
    | |- frames get_y => apply frames_get_y
    | |- frames (set_y _) => apply frames_set_y
    | |- frames (add_y _) => apply frames_add_y
    | |- frames get_skills => apply frames_get_skills
    end.

Section ReportFrame.

Variable numberToString : number -> string.
Variable toLocaleString : string -> string.
Variable splitTextToSize : string -> Z -> list string.

Lemma frames_scoreLine (d : RadarPoint.t) (i : nat) :
  frames (scoreLine numberToString d i).
Proof. unfold scoreLine. frame. Qed.

Lemma frames_snippet (code : string) (i : nat) :
  frames (snippet splitTextToSize code i).
Proof. unfold snippet. frame. unfold snippetLine. frame. Qed.

Lemma frames_sectionLines (item : Skill) :
  frames (sectionLines numberToString toLocaleString splitTextToSize item).
Proof.
  unfold sectionLines. frame.
  destruct (code_snippets item) as [[|c cs]|]; frame; apply frames_snippet.
Qed.

Lemma frames_pageBreak (idx : nat) : frames (pageBreak idx).
Proof. unfold pageBreak. frame. Qed.

Lemma frames_section (item : Skill) (idx : nat) :
  frames (section numberToString toLocaleString splitTextToSize item idx).
Proof.
  unfold section. frame; [apply frames_sectionLines|apply frames_pageBreak].
Qed.

Lemma frames_exportPDF :
  frames (exportPDF numberToString toLocaleString splitTextToSize).
Proof.
  unfold exportPDF. frame; [apply frames_scoreLine|apply frames_section].
Qed.

End ReportFrame.

(** C10: whatever the conversions do, the click on "Export PDF" gives back
    the component state unchanged: the skill array, its order and every
    field of every record, and the other hooks with it. *)
Theorem exportPDF_read_only
    (numberToString : number -> string) (toLocaleString : string -> string)
    (splitTextToSize : string -> Z -> list string) (st : Dashboard) :
  fst (clickExport numberToString toLocaleString splitTextToSize st) = st
  /\ skills (fst (clickExport numberToString toLocaleString splitTextToSize st))
     = skills st.
Proof.
  assert (H : fst (clickExport numberToString toLocaleString splitTextToSize st)
              = st).
  { unfold clickExport. cbn [fst].
    apply (frames_exportPDF numberToString toLocaleString splitTextToSize
             {| dashboard := st; y := 0 |}). }
  split; [exact H|now rewrite H].
Qed.

(** *** Page breaks *)

Lemma emits_ret {A} P (a : A) : emits P (ret a).
Proof. intros w. constructor. Qed.

Lemma emits_bind {A B} P (m : Export A) (k : A -> Export B) :
  emits P m -> (forall a, emits P (k a)) -> emits P (bind m k).
Proof. intros Hm Hk w. rewrite calls_bind. apply Forall_app. split; [apply Hm|apply Hk]. Qed.

Lemma emits_doc (P : DocCall -> Prop) (c : DocCall) : P c -> emits P (doc c).
Proof. intros Hc w. repeat constructor. exact Hc. Qed.

Lemma emits_get_y P : emits P get_y.
Proof. intros w. constructor. Qed.

Lemma emits_set_y P (v : Z) : emits P (set_y v).
Proof. intros w. constructor. Qed.

Lemma emits_add_y P (d : Z) : emits P (add_y d).
Proof. intros w. constructor. Qed.

Lemma emits_get_skills P : emits P get_skills.
Proof. intros w. constructor. Qed.

Lemma emits_when P (b : bool) (m : Export unit) : emits P m -> emits P (when b m).
Proof. intros Hm. destruct b; [exact Hm|apply emits_ret]. Qed.

Lemma emits_forEach_from {A} P (f : A -> nat -> Export unit) (arr : list A) :
  (forall a i, emits P (f a i)) -> forall idx, emits P (forEach_from idx f arr).
Proof.
  intros Hf. induction arr as [|a arr IH]; intros idx; cbn [forEach_from].
  - apply emits_ret.
  - apply emits_bind; [apply Hf|intros _; apply IH].
Qed.

Lemma emits_forEach {A} P (f : A -> nat -> Export unit) (arr : list A) :
  (forall a i, emits P (f a i)) -> emits P (forEach f arr).
Proof. intros Hf. now apply emits_forEach_from. Qed.

Ltac emits :=
  repeat match goal with
    | |- emits _ (bind _ _) => apply emits_bind; [|intros ?]
    | |- emits _ (forEach _ _) => apply emits_forEach; intros ? ?
    | |- emits _ (when _ _) => apply emits_when
    | |- emits _ (ret _) => apply emits_ret
    | |- emits _ (doc _) => apply emits_doc; try discriminate
    | |- emits _ get_y => apply emits_get_y
    | |- emits _ (set_y _) => apply emits_set_y
    | |- emits _ (add_y _) => apply emits_add_y
    | |- emits _ get_skills => apply emits_get_skills
    end.

Section PageBreaks.

Variable numberToString : number -> string.
Variable toLocaleString : string -> string.
Variable splitTextToSize : string -> Z -> list string.

#[local] Abbreviation lines' :=
  (lines numberToString toLocaleString splitTextToSize).
#[local] Abbreviation cursor_after' :=
  (cursor_after numberToString toLocaleString splitTextToSize).
#[local] Abbreviation Paginated' :=
  (Paginated numberToString toLocaleString splitTextToSize).

#[local] Abbreviation sectionLines' :=
  (sectionLines numberToString toLocaleString splitTextToSize).
#[local] Abbreviation section' :=
  (section numberToString toLocaleString splitTextToSize).
#[local] Abbreviation exportPDF' :=
  (exportPDF numberToString toLocaleString splitTextToSize).
#[local] Abbreviation clickExport' :=
  (clickExport numberToString toLocaleString splitTextToSize).

Lemma emits_snippet P (code : string) (i : nat) :
  (forall str x v, P (text str x v)) ->
  emits P (snippet splitTextToSize code i).
Proof. intros HP. unfold snippet. emits. unfold snippetLine. emits. apply HP. Qed.

Lemma sectionLines_not_addPage (item : Skill) :
  emits not_addPage (sectionLines' item).
Proof.
  unfold sectionLines. emits.
  destruct (code_snippets item) as [[|c cs]|]; emits.
  apply emits_snippet. discriminate.
Qed.

(** The header of a section is followed at once by the line of the
    attempts, six units lower. *)
Lemma lines_start (st : Dashboard) (item : Skill) (y0 : Z) :
  exists rest,
    lines' st item y0
    = setFont "helvetica" "bold"
      :: text (skill item +++ " Details") 10 y0
      :: setFont "helvetica" "normal"
      :: text ("Attempts: " +++ attempts toLocaleString item) 12 (y0 + 6)
      :: rest.
Proof. eexists. reflexivity. Qed.

Lemma pageBreak_run (idx : nat) (w : World) :
  pageBreak idx w
  = let b := (270 <? y w)
             && (Z.of_nat idx <? Z.of_nat (length (skills (dashboard w))) - 1) in
    (tt,
     if b then {| dashboard := dashboard w; y := 15 |} else w,
     if b then [addPage] else []).
Proof.
  unfold pageBreak, bind, get_y, get_skills, when, value, world, calls.
  cbn [fst snd].
  destruct ((270 <? y w) && _); reflexivity.
Qed.

Lemma sections_paginated (st : Dashboard) (arr : list Skill) :
  forall idx y0,
    Paginated' st (length (skills st)) idx y0 arr
      (calls (forEach_from idx section' arr {| dashboard := st; y := y0 |})).
Proof.
  induction arr as [|item arr IH]; intros idx y0; cbn [forEach_from].
  - constructor.
  - rewrite calls_bind.
    change (section' item idx)
      with (bind (sectionLines' item) (fun _ => pageBreak idx)).
    rewrite calls_bind, world_bind, <- app_assoc.
    fold (lines' st item y0).
    set (w1 := world (sectionLines' item {| dashboard := st; y := y0 |})).
    assert (Hd : dashboard w1 = st)
      by apply (frames_sectionLines numberToString toLocaleString
                  splitTextToSize item {| dashboard := st; y := y0 |}).
    assert (Hy : y w1 = cursor_after' st item y0) by reflexivity.
    rewrite (pageBreak_run idx w1). cbv zeta. cbn [calls world fst snd].
    rewrite Hd, Hy.
    destruct (270 <? cursor_after' st item y0) eqn:Hcur;
      [destruct (Z.of_nat idx <? Z.of_nat (length (skills st)) - 1) eqn:Hidx|];
      cbn [andb app].
    + apply Paginated_new_page; [lia|lia|apply IH].
    + replace w1 with {| dashboard := st; y := cursor_after' st item y0 |}
        by (destruct w1; cbn in Hd, Hy; now subst).
      apply Paginated_same_page; [lia|apply IH].
    + replace w1 with {| dashboard := st; y := cursor_after' st item y0 |}
        by (destruct w1; cbn in Hd, Hy; now subst).
      apply Paginated_same_page; [lia|apply IH].
Qed.

Lemma Forall_not_last (l : list DocCall) :
  Forall not_addPage l -> last l <> Some addPage.
Proof.
  intros Hl Hlast. apply last_Some in Hlast as [l' ->].
  apply Forall_app in Hl as [_ Hl]. apply Forall_cons in Hl as [Hl _].
  now apply Hl.
Qed.

(** When the sections listed are the last ones of the [n], the calls do
    not end with a page break, and there are calls if there are sections. *)
Lemma Paginated_last (st : Dashboard) (n idx : nat) (y0 : Z)
    (arr : list Skill) (secs : list DocCall) :
  Paginated' st n idx y0 arr secs ->
  (idx + length arr = n)%nat ->
  last secs <> Some addPage /\ (arr <> [] -> last secs <> None).
Proof.
  induction 1 as [idx y0|idx y0 item rest tail Hno Hrest IH
                 |idx y0 item rest tail Hcur Hidx Hrest IH];
    intros Hn; cbn [length] in Hn.
  - split; [discriminate|congruence].
  - destruct IH as [IHlast _]; [lia|].
    pose proof (Forall_not_last _ (sectionLines_not_addPage item
                  {| dashboard := st; y := y0 |})) as Hlines.
    destruct (lines_start st item y0) as [more Hstart].
    fold (lines' st item y0) in Hlines.
    rewrite last_app. destruct (last tail) as [c|] eqn:Htail.
    + split; [exact IHlast|intros _; discriminate].
    + split; [exact Hlines|]. intros _. rewrite Hstart, last_cons. intros Hx.
      destruct (last (_ :: _)); discriminate Hx.
  - destruct IH as [IHlast IHsome]; [lia|].
    assert (Hne : rest <> []) by (destruct rest; [cbn in Hn; lia|discriminate]).
    specialize (IHsome Hne).
    rewrite last_app_cons, last_cons.
    destruct (last tail) as [c|] eqn:Htail; [|contradiction].
    split; [exact IHlast|intros _; discriminate].
Qed.

Lemma scoreLines_run (arr : list RadarPoint.t) :
  forall idx w,
    world (forEach_from idx (scoreLine numberToString) arr w)
    = {| dashboard := dashboard w; y := y w + 8 * Z.of_nat (length arr) |}.
Proof.
  induction arr as [|d arr IH]; intros idx w; cbn [forEach_from].
  - destruct w as [dsh v]. cbn. f_equal. lia.
  - rewrite world_bind, IH. cbn. f_equal. lia.
Qed.

Lemma scoreLines_not_addPage (arr : list RadarPoint.t) :
  emits not_addPage (forEach (scoreLine numberToString) arr).
Proof. emits. unfold scoreLine. emits. Qed.

(** The document: the title block, the sections, the save. *)
Lemma exportPDF_calls (st : Dashboard) :
  exists title secs,
    snd (clickExport' st) = title ++ secs ++ [save "skill_report.pdf"]
    /\ Forall not_addPage title
    /\ Paginated' st (length (skills st)) 0
         (30 + 8 * Z.of_nat (length (skills st))) (skills st) secs.
Proof.
  set (w0 := {| dashboard := st; y := 25 |}).
  exists ([setFontSize 18; text "Skill Radar Report" 10 15; setFontSize 12]
          ++ calls (forEach (scoreLine numberToString) (radarData (skills st)) w0)),
         (calls (forEach section' (skills st)
                   {| dashboard := st;
                      y := 30 + 8 * Z.of_nat (length (skills st)) |})).
  split; [|split].
  - assert (Hw : world (add_y 5
                          (world (forEach (scoreLine numberToString)
                                    (radarData (skills st)) w0)))
                 = {| dashboard := st;
                      y := 30 + 8 * Z.of_nat (length (skills st)) |}).
    { unfold forEach. rewrite scoreLines_run. unfold radarData.
      rewrite length_fmap. cbn. f_equal. lia. }
    rewrite <- Hw. reflexivity.
  - apply Forall_app. split; [repeat constructor; discriminate|].
    apply scoreLines_not_addPage.
  - apply sections_paginated.
Qed.

End PageBreaks.

(** C7: the document is the title block, the sections and the save.  A page
    is added only behind the complete lines of a section, and only when the
    cursor has passed 270 there and the section is not the last one; the
    next section then starts at the top margin 15.  The lines of a section
    contain no page break, and its header is followed at once by its first
    body line.  The document never ends with a page break before the save,
    however far the last section runs. *)
Theorem exportPDF_page_breaks
    (numberToString : number -> string) (toLocaleString : string -> string)
    (splitTextToSize : string -> Z -> list string) (st : Dashboard) :
  let document :=
    snd (clickExport numberToString toLocaleString splitTextToSize st) in
  (exists title secs,
      document = title ++ secs ++ [save "skill_report.pdf"]
      /\ Forall not_addPage title
      /\ Paginated numberToString toLocaleString splitTextToSize st
           (length (skills st)) 0
           (30 + 8 * Z.of_nat (length (skills st))) (skills st) secs)
  /\ (forall item y0,
        Forall not_addPage
          (lines numberToString toLocaleString splitTextToSize st item y0)
        /\ exists rest,
             lines numberToString toLocaleString splitTextToSize st item y0
             = setFont "helvetica" "bold"
               :: text (skill item +++ " Details") 10 y0
               :: setFont "helvetica" "normal"
               :: text ("Attempts: " +++ attempts toLocaleString item) 12 (y0 + 6)
               :: rest)
  /\ (forall pre, document <> pre ++ [addPage; save "skill_report.pdf"]).
Proof.
  intros document.
  pose proof (exportPDF_calls numberToString toLocaleString splitTextToSize st)
    as (title & secs & Hdoc & Htitle & Hsecs).
  fold document in Hdoc.
  split; [exists title, secs; auto|]. split.
  - intros item y0. split.
    + apply sectionLines_not_addPage.
    + apply lines_start.
  - intros pre Hpre. rewrite Hdoc in Hpre.
    change (pre ++ [addPage; save "skill_report.pdf"])
      with (pre ++ [addPage] ++ [save "skill_report.pdf"]) in Hpre.
    rewrite !app_assoc in Hpre. apply app_inj_tail in Hpre as [Hpre _].
    assert (Hlast : last (title ++ secs) = Some addPage)
      by (rewrite Hpre; apply last_snoc).
    apply last_app_Some in Hlast as [Hlast|[_ Hlast]].
    + destruct (Paginated_last _ _ _ _ _ _ _ _ _ Hsecs) as [Hno _];
        [reflexivity|]. exact (Hno Hlast).
    + now apply (Forall_not_last title).
Qed.

(* ================================================================= *)
(** * Further properties *)

(** ** The format check *)

Lemma point_not_digit : is_digit "."%char = false.
Proof. reflexivity. Qed.

Lemma skip_digits_all (s : string) :
  all_digits s = true <-> skip_digits s = "".
Proof.
  induction s as [|c s IH]; cbn [all_digits skip_digits].
  - tauto.
  - destruct (is_digit c); cbn [andb]; [exact IH|].
    split; discriminate.
Qed.

Lemma format_test_cons (c : ascii) (s : string) :
  format_test (String c s)
  = if is_digit c then format_test s
    else if Ascii.eqb c "."%char then all_digits s else false.
Proof.
  unfold format_test. cbn [skip_digits].
  destruct (is_digit c) eqn:Hd; [reflexivity|].
  destruct (Ascii.eqb_spec c "."%char) as [->|Hc].
  - cbn [skip_point].
    destruct (all_digits s) eqn:Hs.
    + apply skip_digits_all in Hs. now rewrite Hs.
    + destruct (skip_digits s) eqn:Hk; [|reflexivity].
      apply skip_digits_all in Hk. congruence.
  - assert (Hsp : skip_point (String c s) = String c s).
    { destruct c as [[|] [|] [|] [|] [|] [|] [|] [|]]; try reflexivity.
      now contradiction Hc. }
    rewrite Hsp. cbn [skip_digits]. now rewrite Hd.
Qed.

Lemma all_digits_app (s1 s2 : string) :
  all_digits (s1 +++ s2) = all_digits s1 && all_digits s2.
Proof.
  induction s1 as [|c s1 IH]; cbn [String.append all_digits]; [reflexivity|].
  now rewrite IH, andb_assoc.
Qed.

Lemma all_digits_format (s : string) : all_digits s = true -> format_test s = true.
Proof.
  induction s as [|c s IH]; [reflexivity|]. cbn [all_digits].
  intros [Hc Hs]%andb_true_iff. rewrite format_test_cons, Hc. now apply IH.
Qed.

(** X1: The pattern accepts the strings of digits and the strings of digits with
    one point in them, and nothing else. *)
Theorem format_test_spec (val : string) :
  format_test val = true
  <-> (all_digits val = true
       \/ exists ip fp,
            val = ip +++ String "."%char fp
            /\ all_digits ip = true /\ all_digits fp = true).
Proof.
  split.
  - induction val as [|c s IH]; [now left|].
    rewrite format_test_cons.
    destruct (is_digit c) eqn:Hd.
    + intros H. destruct (IH H) as [Hs|(ip & fp & -> & Hip & Hfp)].
      * left. cbn [all_digits]. now rewrite Hd.
      * right. exists (String c ip), fp. cbn [String.append all_digits].
        now rewrite Hd.
    + destruct (Ascii.eqb_spec c "."%char) as [->|Hc]; [|discriminate].
      intros Hs. right. exists "", s. auto.
  - intros [Hs|(ip & fp & -> & Hip & Hfp)]; [now apply all_digits_format|].
    induction ip as [|c ip IH]; cbn [String.append].
    + rewrite format_test_cons, point_not_digit. exact Hfp.
    + cbn [all_digits] in Hip. apply andb_true_iff in Hip as [Hc Hip].
      rewrite format_test_cons, Hc. now apply IH.
Qed.

(** X2: Every initial part of an accepted string is accepted: typing an
    accepted input character by character passes through accepted inputs
    only. *)
Theorem format_test_prefix (s1 s2 : string) :
  format_test (s1 +++ s2) = true -> format_test s1 = true.
Proof.
  induction s1 as [|c s1 IH]; [reflexivity|].
  cbn [String.append]. rewrite !format_test_cons.
  destruct (is_digit c); [exact IH|].
  destruct (Ascii.eqb c "."%char); [|discriminate].
  rewrite all_digits_app. now intros [H _]%andb_true_iff.
Qed.

Lemma format_test_prefix_witness : format_test "10." = true.
Proof. apply (format_test_prefix "10." "5"). reflexivity. Defined.

(** ** [Number] on accepted input *)

Lemma skip_digits_length (s : string) :
  (String.length (skip_digits s) <= String.length s)%nat.
Proof.
  induction s as [|c s IH]; cbn [skip_digits]; [reflexivity|].
  destruct (is_digit c); cbn [String.length]; lia.
Qed.

Lemma skip_digits_head (s : string) (c : ascii) (r : string) :
  skip_digits s = String c r -> is_digit c = false.
Proof.
  induction s as [|a s IH]; cbn [skip_digits]; [discriminate|].
  destruct (is_digit a) eqn:Ha; [exact IH|]. now intros [= <- _].
Qed.

(** [read_digits] stops where [skip_digits] stops, and counts a digit
    exactly when there is one to read. *)
Lemma read_digits_spec (s : string) :
  forall acc count,
    0 <= acc ->
    exists m k,
      read_digits acc count s = (m, k, skip_digits s)
      /\ 0 <= m
      /\ (count <= k)%nat
      /\ (k = count <-> skip_digits s = s).
Proof.
  induction s as [|c s IH]; intros acc count Hacc; cbn [read_digits skip_digits].
  - exists acc, count. repeat split; auto.
  - destruct (is_digit c) eqn:Hd.
    + assert (Hv : 0 <= digit_value c).
      { unfold is_digit in Hd. unfold digit_value. lia. }
      destruct (IH (10 * acc + digit_value c) (S count)) as (m & k & Hr & Hm & Hk & _);
        [lia|].
      exists m, k. split; [exact Hr|]. split; [exact Hm|]. split; [lia|].
      split; [lia|]. intros Heq.
      pose proof (skip_digits_length s) as Hlen. rewrite Heq in Hlen.
      cbn [String.length] in Hlen. lia.
    + exists acc, count. repeat split; auto.
Qed.

Lemma decimal_literal_sign (m : Z) (k : nat) :
  has_sign false (decimal_literal m k).
Proof. destruct m; try reflexivity. apply ratio_sign. Qed.

Lemma has_sign_false_facts (x : number) :
  has_sign false x ->
  JS.isNaN x = false /\ JS.lt x JS.zero = false /\ JS.is_neg_zero x = false.
Proof.
  destruct x as [s|s| |s m e]; cbn [has_sign]; intros H; try contradiction;
    subst s; repeat split.
Qed.

(** An accepted string is the lone point, which converts to NaN, or
    converts to a zero, an infinity or a finite number of positive sign. *)
Lemma Number_accepted_cases (val : string) :
  format_test val = true ->
  (val = "." /\ Number val = JS.NaN)
  \/ (val <> "." /\ has_sign false (Number val)).
Proof.
  intros Hfmt.
  unfold Number. unfold format_test in Hfmt.
    destruct (read_digits_spec val 0 0 ltac:(lia)) as (ip & ni & Hr & Hip & _ & Hni).
    rewrite Hr.
    destruct (skip_digits val) as [|c frac] eqn:Hskip.
    - right. split; [intros ->; discriminate Hskip|]. apply decimal_literal_sign.
    - destruct (Ascii.eqb_spec c "."%char) as [->|Hc].
      + cbn [skip_point] in Hfmt.
        destruct (read_digits_spec frac ip 0 Hip) as (m & nf & Hr2 & _ & _ & Hnf).
        rewrite Hr2.
        destruct (skip_digits frac) eqn:Hfrac; [|discriminate Hfmt].
        destruct ni as [|ni].
        * destruct nf as [|nf].
          -- left. split; [|reflexivity].
             destruct Hni as [Hni _]. rewrite <- (Hni eq_refl).
             destruct Hnf as [Hnf _]. now rewrite <- (Hnf eq_refl).
          -- right. split; [|apply decimal_literal_sign].
             intros ->. cbn in Hskip. injection Hskip as <-.
             destruct Hnf as [_ Hnf]. now specialize (Hnf eq_refl).
        * right. split; [|apply decimal_literal_sign].
          intros ->. cbn in Hskip. injection Hskip as <-.
          destruct Hni as [_ Hni]. now specialize (Hni eq_refl).
      + exfalso.
        assert (Hsp : skip_point (String c frac) = String c frac).
        { destruct c as [[|] [|] [|] [|] [|] [|] [|] [|]]; try reflexivity.
          now contradiction Hc. }
        rewrite Hsp in Hfmt.
        pose proof (skip_digits_head _ _ _ Hskip) as Hnd.
        cbn [skip_digits] in Hfmt. rewrite Hnd in Hfmt. discriminate Hfmt.
Qed.

(** X3: Among the accepted strings the lone point is the only one that converts
    to NaN; every other one converts to a number that is neither below 0
    nor -0, so that only the upper bound can refuse it. *)
Theorem Number_accepted (val : string) :
  format_test val = true ->
  (JS.isNaN (Number val) = true <-> val = ".")
  /\ (val <> "." ->
      JS.lt (Number val) JS.zero = false
      /\ JS.is_neg_zero (Number val) = false
      /\ rejected (Number val) = JS.gt (Number val) JS.ten).
Proof.
  intros Hfmt.
  destruct (Number_accepted_cases val Hfmt) as [[-> Hnan]|[Hne Hs]].
  - split; [split; auto|]. intros H. now contradiction H.
  - apply has_sign_false_facts in Hs as (Hnan & Hlt & Hnz).
    split; [split; [congruence|intros ->; now contradiction Hne]|].
    intros _. unfold rejected. now rewrite Hnan, Hlt.
Qed.

Lemma Number_accepted_witness :
  JS.isNaN (Number "5.") = true <-> "5." = ".".
Proof. apply (Number_accepted "5."). reflexivity. Defined.

(** ** A row and the handler together *)

(** X5: What the row lets through, the handler stores as it is: typing an
    accepted value into the row of an existing record replaces the score by
    the very number the input denotes and clears the message; the field
    then keeps the input when the score is the same value as before, and
    shows the new score converted to a string otherwise.  Any other input
    changes nothing in the component and leaves the input and a message in
    the row. *)
Theorem typeIntoRow_existing
    (numberToString : number -> string)
    (idx : nat) (val : string) (row : SkillEditRow.RowState)
    (st : Dashboard) (item : Skill) :
  skills st !! idx = Some item ->
  typeIntoRow numberToString idx val row st
  = if format_test val && negb (rejected (Number val))
    then ({| SkillEditRow.inputValue :=
               if JS.same_value (score item) (Number val) then val
               else numberToString (Number val);
             SkillEditRow.error := "" |},
          Some (setSkills (<[idx := with_score item (Number val)]> (skills st))
                  (setUpdatingIdx (Some idx) st)))
    else ({| SkillEditRow.inputValue := val;
             SkillEditRow.error :=
               if format_test val then SkillEditRow.msg_out_of_range
               else SkillEditRow.msg_numbers_only |},
          Some st).
Proof.
  intros Hitem. unfold typeIntoRow. rewrite handleInput_unfold.
  destruct (format_test val) eqn:Hfmt; cbn [negb andb]; [|reflexivity].
  destruct (rejected (Number val)) eqn:Hrej; cbn [negb]; [reflexivity|].
  unfold handleSkillScoreChange. rewrite Hrej, Hitem.
  rewrite (clamp_accepted _ Hrej).
  destruct (Number_accepted_cases val Hfmt) as [[-> _]|[_ Hs]];
    [discriminate Hrej|].
  apply has_sign_false_facts in Hs as (_ & _ & Hnz). rewrite Hnz.
  cbn [skills setSkills].
  rewrite list_lookup_insert_eq by (now apply lookup_lt_Some in Hitem).
  unfold SkillEditRow.scoreEffect. cbn [score with_score].
  now destruct (JS.same_value (score item) (Number val)).
Qed.

Lemma typeIntoRow_existing_witness :
  exists st',
    typeIntoRow demo_number 2 "6.3" (SkillEditRow.mkRow "5.1" "")
      (loadSkills (Resolved fetchSkills_data) initial)
    = ({| SkillEditRow.inputValue := "n"; SkillEditRow.error := "" |}, Some st')
    /\ score <$> skills st' !! 2%nat = Some (JS.ratio false 63 10).
Proof.
  eexists. split.
  - rewrite (typeIntoRow_existing demo_number 2 "6.3"
               (SkillEditRow.mkRow "5.1" "")
               (loadSkills (Resolved fetchSkills_data) initial) _ eq_refl).
    reflexivity.
  - vm_compute. reflexivity.
Defined.

(** ** More on [handleSkillScoreChange] *)

Lemma with_score_twice (item : Skill) (a b : number) :
  with_score (with_score item a) b = with_score item b.
Proof. reflexivity. Qed.

(** X6: A second call with the same arguments changes nothing more. *)
Theorem handleSkillScoreChange_idempotent
    (idx : nat) (c : number) (st st1 : Dashboard) :
  handleSkillScoreChange idx c st = Some st1 ->
  handleSkillScoreChange idx c st1 = Some st1.
Proof.
  unfold handleSkillScoreChange. destruct (rejected c) eqn:Hc.
  - intros [= <-]. reflexivity.
  - destruct (skills st !! idx) as [old|] eqn:Hold; [|discriminate].
    intros [= <-]. cbn [skills setSkills].
    rewrite list_lookup_insert_eq by (now apply lookup_lt_Some in Hold).
    rewrite with_score_twice, list_insert_insert_eq. reflexivity.
Qed.

Lemma handleSkillScoreChange_idempotent_witness :
  exists st1,
    handleSkillScoreChange 1 (JS.of_Z 9)
      (loadSkills (Resolved fetchSkills_data) initial) = Some st1
    /\ handleSkillScoreChange 1 (JS.of_Z 9) st1 = Some st1.
Proof.
  eexists. split; [reflexivity|].
  apply (handleSkillScoreChange_idempotent 1 (JS.of_Z 9)
           (loadSkills (Resolved fetchSkills_data) initial)).
  reflexivity.
Defined.

(** X7: The handler changes scores only: the records keep their number, their
    order, their names and their other fields, and the hooks other than
    [skills] and [updatingIdx] keep their values. *)
Theorem handleSkillScoreChange_frame
    (idx : nat) (c : number) (st st' : Dashboard) :
  handleSkillScoreChange idx c st = Some st' ->
  length (skills st') = length (skills st)
  /\ (forall j item',
        skills st' !! j = Some item' ->
        exists item,
          skills st !! j = Some item
          /\ item' = with_score item (score item')
          /\ (j <> idx -> item' = item))
  /\ selectedSkill st' = selectedSkill st
  /\ darkMode st' = darkMode st
  /\ loading st' = loading st
  /\ error st' = error st.
Proof.
  unfold handleSkillScoreChange. destruct (rejected c) eqn:Hc.
  - intros [= <-]. split; [reflexivity|]. split; [|auto].
    intros j item' Hj. exists item'. split; [exact Hj|].
    split; [now destruct item'|auto].
  - destruct (skills st !! idx) as [old|] eqn:Hold; [|discriminate].
    intros [= <-]. cbn [skills setSkills selectedSkill darkMode loading error
                      setUpdatingIdx].
    split; [apply length_insert|]. split; [|auto].
    intros j item' Hj.
    apply list_lookup_insert_Some in Hj as [(-> & <- & _)|[Hne Hj]].
    + exists old. split; [exact Hold|]. split; [reflexivity|]. congruence.
    + exists item'. split; [exact Hj|]. split; [now destruct item'|auto].
Qed.

Lemma handleSkillScoreChange_frame_witness :
  exists st',
    handleSkillScoreChange 0 (JS.of_Z 2)
      (loadSkills (Resolved fetchSkills_data) initial) = Some st'
    /\ length (skills st') = 3%nat.
Proof.
  eexists. split; [reflexivity|].
  apply (handleSkillScoreChange_frame 0 (JS.of_Z 2)
           (loadSkills (Resolved fetchSkills_data) initial)).
  reflexivity.
Defined.

(** X8: Of two accepted changes of the same record the second one decides: the
    state is the one the second change alone would give. *)
Theorem handleSkillScoreChange_last_wins
    (idx : nat) (a b : number) (st : Dashboard) :
  rejected a = false ->
  rejected b = false ->
  scoreChanges [(idx, a); (idx, b)] st = scoreChanges [(idx, b)] st.
Proof.
  intros Ha Hb. cbn [scoreChanges]. unfold handleSkillScoreChange.
  rewrite Ha, Hb.
  destruct (skills st !! idx) as [old|] eqn:Hold; [|reflexivity].
  cbn [skills setSkills].
  rewrite list_lookup_insert_eq by (now apply lookup_lt_Some in Hold).
  rewrite with_score_twice, list_insert_insert_eq. reflexivity.
Qed.

Lemma handleSkillScoreChange_last_wins_witness :
  scoreChanges [(0%nat, JS.of_Z 3); (0%nat, JS.of_Z 4)]
    (loadSkills (Resolved fetchSkills_data) initial)
  = scoreChanges [(0%nat, JS.of_Z 4)]
      (loadSkills (Resolved fetchSkills_data) initial).
Proof.
  apply (handleSkillScoreChange_last_wins 0 (JS.of_Z 3) (JS.of_Z 4));
    reflexivity.
Defined.

(** X9: Changes of two different records commute as far as the collection is
    concerned; only the index recorded as being updated depends on the
    order. *)
Theorem handleSkillScoreChange_commute
    (i j : nat) (a b : number) (st : Dashboard) :
  i <> j ->
  (i < length (skills st))%nat ->
  (j < length (skills st))%nat ->
  exists st1 st2,
    scoreChanges [(i, a); (j, b)] st = Some st1
    /\ scoreChanges [(j, b); (i, a)] st = Some st2
    /\ skills st1 = skills st2.
Proof.
  intros Hij Hi Hj.
  destruct (lookup_lt_is_Some_2 _ _ Hi) as [x Hx].
  destruct (lookup_lt_is_Some_2 _ _ Hj) as [z Hz].
  cbn [scoreChanges]. unfold handleSkillScoreChange.
  destruct (rejected a) eqn:Ha, (rejected b) eqn:Hb;
    rewrite ?Ha, ?Hb, ?Hx, ?Hz; cbn [skills setSkills setUpdatingIdx];
    rewrite ?Ha, ?Hb, ?Hx, ?Hz;
    rewrite ?list_lookup_insert_ne by auto;
    rewrite ?Hx, ?Hz; eexists _, _; repeat split.
  cbn [skills setSkills]. now apply list_insert_insert_ne.
Qed.

Lemma handleSkillScoreChange_commute_witness :
  exists st1 st2,
    scoreChanges [(0%nat, JS.of_Z 3); (2%nat, JS.of_Z 4)]
      (loadSkills (Resolved fetchSkills_data) initial) = Some st1
    /\ scoreChanges [(2%nat, JS.of_Z 4); (0%nat, JS.of_Z 3)]
         (loadSkills (Resolved fetchSkills_data) initial) = Some st2
    /\ skills st1 = skills st2.
Proof.
  apply (handleSkillScoreChange_commute 0 2 (JS.of_Z 3) (JS.of_Z 4)
           (loadSkills (Resolved fetchSkills_data) initial)).
  - discriminate.
  - cbn. lia.
  - cbn. lia.
Defined.

Lemma clamp_finite_positive (m : positive) (e : Z) :
  clamp (S754_finite false m e)
  = if JS.gt (S754_finite false m e) JS.ten then JS.ten
    else S754_finite false m e.
Proof.
  unfold clamp.
  rewrite (Math_min_pair JS.ten (S754_finite false m e)) by reflexivity.
  change (JS.min_step JS.pos_infinity JS.ten) with JS.ten.
  unfold JS.min_step, JS.lt, JS.gt, SFltb, JS.ten, SFcompare.
  cbv [andb JS.is_neg_zero].
  rewrite (Z.compare_antisym e (-49)).
  destruct (e ?= -49) eqn:He; cbv [CompOpp].
  - rewrite (compare_cont_antisym_eq m 5629499534213120).
    destruct (Pos.compare_cont Eq m 5629499534213120) eqn:Hm; cbv [CompOpp].
    + apply Pos.compare_eq in Hm. apply Z.compare_eq in He. subst m e.
      reflexivity.
    + rewrite Math_max_pair by reflexivity. reflexivity.
    + reflexivity.
  - rewrite Math_max_pair by reflexivity. reflexivity.
  - reflexivity.
Qed.

(** X10: The clamp of line 228 on its own, without the guard before it: NaN
    stays NaN, a number above 10 becomes 10, a number below 0 becomes 0, and
    the result of clamping a number lies in the interval. *)
Theorem clamp_total (c : number) :
  (JS.isNaN c = true -> clamp c = JS.NaN)
  /\ (JS.gt c JS.ten = true -> clamp c = JS.ten)
  /\ (JS.lt c JS.zero = true -> clamp c = JS.zero)
  /\ (JS.isNaN c = false -> in_range (clamp c) = true).
Proof.
  destruct c as [s|s| |s m e].
  - destruct s; repeat split; intros; try discriminate; reflexivity.
  - destruct s; repeat split; intros; try discriminate; reflexivity.
  - repeat split; intros; try discriminate; reflexivity.
  - destruct s.
    + repeat split; intros; try discriminate; reflexivity.
    + rewrite clamp_finite_positive.
      destruct (JS.gt (S754_finite false m e) JS.ten) eqn:Hgt;
        repeat split; intros; try discriminate; try reflexivity.
      pose proof (rejected_in_range (S754_finite false m e)) as Hr.
      unfold rejected in Hr. rewrite Hgt in Hr.
      symmetry in Hr. now apply negb_false_iff in Hr.
Qed.

Lemma clamp_total_witness : clamp (JS.of_Z 12) = JS.ten.
Proof. apply (clamp_total (JS.of_Z 12)). reflexivity. Defined.

(** ** The contents of the report *)

Lemma textsFrom_length (x step y0 : Z) (ls : list string) :
  length (textsFrom x step y0 ls) = length ls.
Proof.
  revert y0. induction ls as [|l ls IH]; intros y0; cbn; [reflexivity|].
  now rewrite IH.
Qed.

Lemma textsFrom_lookup (x step : Z) (ls : list string) :
  forall y0 i,
    textsFrom x step y0 ls !! i
    = (fun l => text l x (y0 + step * Z.of_nat i)) <$> ls !! i.
Proof.
  induction ls as [|l ls IH]; intros y0 i; [reflexivity|].
  destruct i as [|i]; cbn [textsFrom lookup list_lookup].
  - cbn. do 2 f_equal. lia.
  - rewrite IH. destruct (ls !! i); cbn; [|reflexivity].
    do 2 f_equal. lia.
Qed.

Lemma textsFrom_app (x step : Z) (l1 l2 : list string) :
  forall y0,
    textsFrom x step y0 (l1 ++ l2)
    = textsFrom x step y0 l1
      ++ textsFrom x step (y0 + step * Z.of_nat (length l1)) l2.
Proof.
  induction l1 as [|l l1 IH]; intros y0; cbn [app textsFrom length].
  - f_equal. lia.
  - rewrite IH. do 3 f_equal. lia.
Qed.

Ltac eq_lia := unfold ret; repeat first [reflexivity | lia | progress f_equal].

Section ReportContents.

Variable numberToString : number -> string.
Variable toLocaleString : string -> string.
Variable splitTextToSize : string -> Z -> list string.

#[local] Abbreviation scoreText' := (scoreText numberToString).
#[local] Abbreviation wrapped' := (wrapped splitTextToSize).
#[local] Abbreviation sectionCalls' :=
  (sectionCalls numberToString toLocaleString splitTextToSize).
#[local] Abbreviation sectionHeight' := (sectionHeight splitTextToSize).
#[local] Abbreviation sectionsFrom' :=
  (sectionsFrom numberToString toLocaleString splitTextToSize).

Lemma snippetLines_run (ls : list string) :
  forall idx w,
    forEach_from idx snippetLine ls w
    = (tt,
       {| dashboard := dashboard w; y := y w + 5 * Z.of_nat (length ls) |},
       textsFrom 14 5 (y w) ls).
Proof.
  induction ls as [|l ls IH]; intros idx w; cbn [forEach_from].
  - destruct w as [d v]. cbn. eq_lia.
  - rewrite bind_run, IH. cbn. eq_lia.
Qed.

Lemma snippet_run (code : string) (idx : nat) (w : World) :
  snippet splitTextToSize code idx w
  = (tt,
     {| dashboard := dashboard w;
        y := y w + 5 * Z.of_nat (length (splitTextToSize code 180)) |},
     textsFrom 14 5 (y w) (splitTextToSize code 180)).
Proof. apply snippetLines_run. Qed.

Lemma snippets_run (cs : list string) :
  forall idx w,
    forEach_from idx (snippet splitTextToSize) cs w
    = (tt,
       {| dashboard := dashboard w;
          y := y w + 5 * Z.of_nat (length (wrapped' cs)) |},
       textsFrom 14 5 (y w) (wrapped' cs)).
Proof.
  induction cs as [|c cs IH]; intros idx w; cbn [forEach_from].
  - destruct w as [d v]. cbn. eq_lia.
  - rewrite bind_run, snippet_run, IH.
    unfold wrapped. cbn [fmap list_fmap concat value world calls fst snd
                         dashboard y].
    rewrite length_app, textsFrom_app. eq_lia.
Qed.

(** A section run from any world: the closed form of its calls, and the
    cursor moved down by its height. *)
Lemma sectionLines_run (item : Skill) (w : World) :
  sectionLines numberToString toLocaleString splitTextToSize item w
  = (tt,
     {| dashboard := dashboard w; y := y w + sectionHeight' item |},
     sectionCalls' item (y w)).
Proof.
  unfold sectionLines, sectionCalls, sectionHeight.
  destruct w as [d v].
  destruct (ai_flagged item) as [[|]|];
    destruct (code_snippets item) as [[|c cs]|];
    lazy beta iota zeta delta
      [bind doc get_y set_y add_y when ret value world calls fst snd y
       dashboard app forEach];
    rewrite ?snippets_run;
    lazy beta iota zeta delta [value world calls fst snd y dashboard app];
    rewrite ?app_nil_r; eq_lia.
  all: etransitivity; [apply app_nil_r|eq_lia].
Qed.

Lemma section_run (item : Skill) (idx : nat) (d : Dashboard) (y0 : Z) :
  section numberToString toLocaleString splitTextToSize item idx
    {| dashboard := d; y := y0 |}
  = let y1 := y0 + sectionHeight' item in
    let b := (270 <? y1) && (Z.of_nat idx <? Z.of_nat (length (skills d)) - 1) in
    (tt,
     {| dashboard := d; y := if b then 15 else y1 |},
     sectionCalls' item y0 ++ if b then [addPage] else []).
Proof.
  unfold section. rewrite bind_run, sectionLines_run.
  cbn [value world calls fst snd dashboard y]. rewrite pageBreak_run.
  cbn [value world calls fst snd dashboard y].
  destruct ((270 <? y0 + sectionHeight' item) && _); reflexivity.
Qed.

Lemma sections_run (d : Dashboard) (arr : list Skill) :
  forall idx y0,
    calls (forEach_from idx
             (section numberToString toLocaleString splitTextToSize) arr
             {| dashboard := d; y := y0 |})
    = sectionsFrom' (length (skills d)) idx y0 arr.
Proof.
  induction arr as [|item arr IH]; intros idx y0;
    cbn [forEach_from sectionsFrom]; [reflexivity|].
  rewrite calls_bind, !section_run.
  cbn [value world calls fst snd].
  destruct ((270 <? y0 + sectionHeight' item) && _);
    rewrite IH, <- app_assoc; reflexivity.
Qed.

Lemma scoreLines_calls (arr : list Skill) :
  forall idx w,
    calls (forEach_from idx (scoreLine numberToString) (radarData arr) w)
    = textsFrom 10 8 (y w) (scoreText' <$> arr).
Proof.
  induction arr as [|item arr IH]; intros idx w; [reflexivity|].
  cbn [radarData fmap list_fmap forEach_from textsFrom].
  rewrite calls_bind. fold (radarData arr). rewrite IH. reflexivity.
Qed.

End ReportContents.

(** X12: The lines of a section are its closed form, whatever the cursor and
    the component state: header, attempts, iteration depth, the red warning
    for a flagged record only, the label of the snippets, and then either
    the wrapped lines of the snippets five units apart or "N/A"; the cursor
    ends lower by the height of the section, which is at least 26. *)
Theorem sectionLines_contents
    (numberToString : number -> string) (toLocaleString : string -> string)
    (splitTextToSize : string -> Z -> list string)
    (st : Dashboard) (item : Skill) (y0 : Z) :
  lines numberToString toLocaleString splitTextToSize st item y0
  = sectionCalls numberToString toLocaleString splitTextToSize item y0
  /\ cursor_after numberToString toLocaleString splitTextToSize st item y0
     = y0 + sectionHeight splitTextToSize item
  /\ 26 <= sectionHeight splitTextToSize item.
Proof.
  unfold lines, cursor_after. rewrite sectionLines_run. repeat split.
  unfold sectionHeight.
  destruct (ai_flagged item) as [[|]|];
    destruct (code_snippets item) as [[|c cs]|]; lia.
Qed.

(** The calls of the click, computed once and for all. *)
Lemma clickExport_report
    (numberToString : number -> string) (toLocaleString : string -> string)
    (splitTextToSize : string -> Z -> list string) (st : Dashboard) :
  snd (clickExport numberToString toLocaleString splitTextToSize st)
  = report numberToString toLocaleString splitTextToSize (skills st).
Proof.
  set (w0 := {| dashboard := st; y := 25 |}).
  set (w1 := world (forEach (scoreLine numberToString)
                      (radarData (skills st)) w0)).
  assert (Hw : world (add_y 5 w1)
               = {| dashboard := st;
                    y := 30 + 8 * Z.of_nat (length (skills st)) |}).
  { subst w1. unfold forEach. rewrite scoreLines_run. unfold radarData.
    rewrite length_fmap. cbn. f_equal. lia. }
  transitivity
    ([setFontSize 18; text "Skill Radar Report" 10 15; setFontSize 12]
     ++ calls (forEach (scoreLine numberToString) (radarData (skills st)) w0)
     ++ calls (forEach (section numberToString toLocaleString splitTextToSize)
                 (skills st) (world (add_y 5 w1)))
     ++ [save "skill_report.pdf"]); [reflexivity|].
  rewrite Hw. unfold forEach, report.
  now rewrite scoreLines_calls, sections_run.
Qed.

(** X13: The document produced by the click is the closed form [report] of the
    records: the heading, one line per record, the sections with their page
    breaks, and the save. *)
Theorem exportPDF_document
    (numberToString : number -> string) (toLocaleString : string -> string)
    (splitTextToSize : string -> Z -> list string) (st : Dashboard) :
  snd (clickExport numberToString toLocaleString splitTextToSize st)
  = report numberToString toLocaleString splitTextToSize (skills st).
Proof. apply clickExport_report. Qed.

(** *** Counting calls *)

Lemma count_app (p : DocCall -> bool) (l1 l2 : list DocCall) :
  count p (l1 ++ l2) = (count p l1 + count p l2)%nat.
Proof. unfold count. now rewrite List.filter_app, length_app. Qed.

Lemma count_cons (p : DocCall -> bool) (c : DocCall) (l : list DocCall) :
  count p (c :: l) = ((if p c then 1 else 0) + count p l)%nat.
Proof. unfold count. cbn [List.filter]. now destruct (p c). Qed.

Lemma count_textsFrom (p : DocCall -> bool) (x step : Z) (ls : list string) :
  (forall s a b, p (text s a b) = false) ->
  forall y0, count p (textsFrom x step y0 ls) = 0%nat.
Proof.
  intros Hp. induction ls as [|l ls IH]; intros y0; [reflexivity|].
  cbn [textsFrom]. now rewrite count_cons, Hp, IH.
Qed.

Section ReportCounts.

Variable numberToString : number -> string.
Variable toLocaleString : string -> string.
Variable splitTextToSize : string -> Z -> list string.

#[local] Abbreviation sectionCalls' :=
  (sectionCalls numberToString toLocaleString splitTextToSize).
#[local] Abbreviation sectionsFrom' :=
  (sectionsFrom numberToString toLocaleString splitTextToSize).
#[local] Abbreviation sectionHeight' := (sectionHeight splitTextToSize).

Lemma count_sectionCalls (p : DocCall -> bool) (item : Skill) (y0 : Z) :
  (forall s a b, p (text s a b) = false) ->
  (forall s a b w, p (textMaxWidth s a b w) = false) ->
  (forall r g b, p (setTextColor r g b) = false) ->
  count p (sectionCalls' item y0)
  = ((if p (setFont "helvetica" "bold") then 1 else 0)
     + (if p (setFont "helvetica" "normal") then 1 else 0))%nat.
Proof.
  intros Ht Hm Hc. unfold sectionCalls.
  rewrite !count_app, !count_cons, !Ht.
  assert (H1 : count p (if match ai_flagged item with
                           | Some true => true | _ => false end
                        then [setTextColor 255 0 0;
                              textMaxWidth "AI/Plagiarism Suspected" 12
                                (y0 + 18) 180;
                              setTextColor 0 0 0]
                        else []) = 0%nat).
  { destruct (match ai_flagged item with Some true => true | _ => false end);
      [|reflexivity].
    now rewrite !count_cons, !Hc, Hm. }
  rewrite H1.
  assert (H2 : forall yc,
             count p match code_snippets item with
                     | Some (c :: cs) =>
                         textsFrom 14 5 (yc + 6) (wrapped splitTextToSize (c :: cs))
                     | _ => [text "N/A" 14 (yc + 6)]
                     end = 0%nat).
  { intros yc. destruct (code_snippets item) as [[|c cs]|];
      rewrite ?count_textsFrom by exact Ht;
      rewrite ?count_cons, ?Ht; reflexivity. }
  rewrite H2. cbn [count List.filter length]. lia.
Qed.

Lemma count_sectionsFrom (n : nat) (arr : list Skill) :
  forall idx y0,
    count is_header (sectionsFrom' n idx y0 arr) = length arr
    /\ count is_save (sectionsFrom' n idx y0 arr) = 0%nat
    /\ Z.of_nat (count is_addPage (sectionsFrom' n idx y0 arr))
       <= Z.max 0 (Z.of_nat n - 1 - Z.of_nat idx)
    /\ (y0 + foldr (fun item acc => sectionHeight' item + acc) 0 arr <= 270 ->
        count is_addPage (sectionsFrom' n idx y0 arr) = 0%nat).
Proof.
  induction arr as [|item arr IH]; intros idx y0; cbn [sectionsFrom foldr].
  - repeat split; cbn; lia.
  - assert (Hh : 26 <= sectionHeight' item).
    { unfold sectionHeight.
      destruct (ai_flagged item) as [[|]|];
        destruct (code_snippets item) as [[|c cs]|]; lia. }
    assert (Hsum : forall l, 0 <= foldr (fun item acc => sectionHeight' item + acc) 0 l).
    { clear -numberToString. induction l as [|a l IHl]; cbn [foldr]; [lia|].
      assert (26 <= sectionHeight' a); [|lia].
      unfold sectionHeight.
      destruct (ai_flagged a) as [[|]|];
        destruct (code_snippets a) as [[|c cs]|]; lia. }
    specialize (Hsum arr).
    destruct (270 <? y0 + sectionHeight' item) eqn:Hcur;
      [destruct (Z.of_nat idx <? Z.of_nat n - 1) eqn:Hidx|]; cbn [andb].
    + destruct (IH (S idx) 15) as (H1 & H2 & H3 & _).
      rewrite !count_app, !count_cons, !count_sectionCalls by reflexivity.
      cbn [is_header is_save is_addPage String.eqb Ascii.eqb Bool.eqb].
      rewrite H1, H2. repeat split; try lia.
    + destruct (IH (S idx) (y0 + sectionHeight' item)) as (H1 & H2 & H3 & H4).
      rewrite !count_app, !count_sectionCalls by reflexivity.
      cbn [is_header is_save is_addPage String.eqb Ascii.eqb Bool.eqb].
      rewrite H1, H2. repeat split; try lia.
    + destruct (IH (S idx) (y0 + sectionHeight' item)) as (H1 & H2 & H3 & H4).
      rewrite !count_app, !count_sectionCalls by reflexivity.
      cbn [is_header is_save is_addPage String.eqb Ascii.eqb Bool.eqb].
      rewrite H1, H2. repeat split; try lia.
Qed.

End ReportCounts.

(** X14: The document has one section header per record, one save, which is its
    last call, and fewer page breaks than records. *)
Theorem exportPDF_counts
    (numberToString : number -> string) (toLocaleString : string -> string)
    (splitTextToSize : string -> Z -> list string) (st : Dashboard) :
  let document :=
    snd (clickExport numberToString toLocaleString splitTextToSize st) in
  count is_header document = length (skills st)
  /\ count is_save document = 1%nat
  /\ last document = Some (save "skill_report.pdf")
  /\ (count is_addPage document <= length (skills st) - 1)%nat.
Proof.
  intros document. subst document. rewrite clickExport_report. unfold report.
  destruct (count_sectionsFrom numberToString toLocaleString splitTextToSize
              (length (skills st)) (skills st) 0
              (30 + 8 * Z.of_nat (length (skills st))))
    as (Hh & Hs & Hp & _).
  rewrite !count_app, !count_textsFrom by reflexivity.
  rewrite Hh, Hs. cbn [count List.filter is_header is_save is_addPage length].
  repeat split; try lia.
  rewrite !app_assoc. apply last_snoc.
Qed.

(** X15: When the title block and all the sections fit above 270, the document
    has no page break. *)
Theorem exportPDF_single_page
    (numberToString : number -> string) (toLocaleString : string -> string)
    (splitTextToSize : string -> Z -> list string) (st : Dashboard) :
  30 + 8 * Z.of_nat (length (skills st))
  + foldr (fun item acc => sectionHeight splitTextToSize item + acc) 0 (skills st)
  <= 270 ->
  count is_addPage
    (snd (clickExport numberToString toLocaleString splitTextToSize st))
  = 0%nat.
Proof.
  intros Hfit. rewrite clickExport_report. unfold report.
  destruct (count_sectionsFrom numberToString toLocaleString splitTextToSize
              (length (skills st)) (skills st) 0
              (30 + 8 * Z.of_nat (length (skills st))))
    as (_ & _ & _ & Hp).
  rewrite !count_app, !count_textsFrom by reflexivity.
  rewrite (Hp Hfit). reflexivity.
Qed.

Lemma exportPDF_single_page_witness :
  count is_addPage
    (snd (clickExport demo_number demo_date demo_split
            (loadSkills (Resolved fetchSkills_data) initial)))
  = 0%nat.
Proof.
  apply (exportPDF_single_page demo_number demo_date demo_split
           (loadSkills (Resolved fetchSkills_data) initial)).
  vm_compute. discriminate.
Defined.

(** X16: The title block has one line per record, in the order of the records:
    the line of the record at index [i] is the call at position [3 + i], at
    abscissa 10 and ordinate [25 + 8 * i]. *)
Theorem exportPDF_title_line
    (numberToString : number -> string) (toLocaleString : string -> string)
    (splitTextToSize : string -> Z -> list string)
    (st : Dashboard) (i : nat) (item : Skill) :
  skills st !! i = Some item ->
  snd (clickExport numberToString toLocaleString splitTextToSize st)
    !! (3 + i)%nat
  = Some (text (skill item +++ ": " +++ numberToString (score item) +++ "/10")
            10 (25 + 8 * Z.of_nat i)).
Proof.
  intros Hitem. rewrite clickExport_report. unfold report.
  match goal with
  | |- (_ ++ ?rest) !! _ = _ => transitivity (rest !! i); [reflexivity|]
  end.
  rewrite lookup_app_l.
  - rewrite textsFrom_lookup, list_lookup_fmap, Hitem. reflexivity.
  - rewrite textsFrom_length, length_fmap. now apply lookup_lt_Some in Hitem.
Qed.

Lemma exportPDF_title_line_witness :
  snd (clickExport demo_number demo_date demo_split
         (loadSkills (Resolved fetchSkills_data) initial)) !! 5%nat
  = Some (text "System Design: n/10" 10 41).
Proof.
  exact (exportPDF_title_line demo_number demo_date demo_split
           (loadSkills (Resolved fetchSkills_data) initial) 2 _ eq_refl).
Defined.

(** X17: With no record the document is the heading and the save: no score
    line, no section, no page break. *)
Theorem exportPDF_no_records
    (numberToString : number -> string) (toLocaleString : string -> string)
    (splitTextToSize : string -> Z -> list string) (st : Dashboard) :
  skills st = [] ->
  snd (clickExport numberToString toLocaleString splitTextToSize st)
  = [ setFontSize 18; text "Skill Radar Report" 10 15; setFontSize 12;
      save "skill_report.pdf" ].
Proof. intros Hnil. rewrite clickExport_report, Hnil. reflexivity. Qed.

Lemma exportPDF_no_records_witness :
  snd (clickExport demo_number demo_date demo_split
         (loadSkills Rejected initial))
  = [ setFontSize 18; text "Skill Radar Report" 10 15; setFontSize 12;
      save "skill_report.pdf" ].
Proof.
  apply (exportPDF_no_records demo_number demo_date demo_split
           (loadSkills Rejected initial)).
  reflexivity.
Defined.

(** *** What follows a page break *)

Section AfterPageBreak.

Variable numberToString : number -> string.
Variable toLocaleString : string -> string.
Variable splitTextToSize : string -> Z -> list string.

#[local] Abbreviation sectionCalls'' :=
  (sectionCalls numberToString toLocaleString splitTextToSize).
#[local] Abbreviation sectionsFrom'' :=
  (sectionsFrom numberToString toLocaleString splitTextToSize).

Lemma sectionCalls_no_addPage (item : Skill) (y0 : Z) (i : nat) :
  sectionCalls'' item y0 !! i <> Some addPage.
Proof.
  intros Hi.
  pose proof (sectionLines_not_addPage numberToString toLocaleString
                splitTextToSize item {| dashboard := initial; y := y0 |}) as Hall.
  rewrite sectionLines_run in Hall. cbn [calls snd y] in Hall.
  rewrite Forall_lookup in Hall. now apply (Hall i addPage Hi).
Qed.

Lemma textsFrom_no_addPage (x step y0 : Z) (ls : list string) (i : nat) :
  textsFrom x step y0 ls !! i <> Some addPage.
Proof.
  rewrite textsFrom_lookup. destruct (ls !! i); discriminate.
Qed.

Lemma sectionsFrom_head (n idx : nat) (y0 : Z) (item : Skill) (rest : list Skill) :
  exists more,
    sectionsFrom'' n idx y0 (item :: rest)
    = setFont "helvetica" "bold"
      :: text (skill item +++ " Details") 10 y0 :: more.
Proof.
  cbn [sectionsFrom]. unfold sectionCalls.
  destruct ((270 <? _) && _); eexists; reflexivity.
Qed.

Lemma sectionsFrom_after_addPage (n : nat) (arr : list Skill) :
  forall idx y0 i,
    (idx + length arr = n)%nat ->
    sectionsFrom'' n idx y0 arr !! i = Some addPage ->
    sectionsFrom'' n idx y0 arr !! S i = Some (setFont "helvetica" "bold")
    /\ exists item,
         item ∈ arr
         /\ sectionsFrom'' n idx y0 arr !! S (S i)
            = Some (text (skill item +++ " Details") 10 15).
Proof.
  induction arr as [|item rest IH]; intros idx y0 i Hn Hi; [discriminate Hi|].
  cbn [length] in Hn. cbn [sectionsFrom] in *.
  set (sc := sectionCalls'' item y0) in *.
  assert (Hlen : (length sc <= i)%nat).
  { destruct (Nat.le_gt_cases (length sc) i) as [H|H]; [exact H|].
    exfalso. destruct ((270 <? _) && _);
      rewrite lookup_app_l in Hi by exact H;
      now apply sectionCalls_no_addPage in Hi. }
  destruct ((270 <? y0 + sectionHeight splitTextToSize item)
            && (Z.of_nat idx <? Z.of_nat n - 1)) eqn:Hguard.
  - apply andb_true_iff in Hguard as [_ Hidx].
    rewrite lookup_app_r in Hi by exact Hlen.
    rewrite !lookup_app_r by lia.
    destruct (i - length sc)%nat as [|k] eqn:Hk.
    + replace (S i - length sc)%nat with 1%nat by lia.
      replace (S (S i) - length sc)%nat with 2%nat by lia.
      destruct rest as [|next rest']; [cbn [length] in Hn; lia|].
      destruct (sectionsFrom_head n (S idx) 15 next rest') as [more Hhead].
      cbn [lookup list_lookup]. rewrite Hhead. split; [reflexivity|].
      exists next. split; [|reflexivity].
      apply list_elem_of_further, list_elem_of_here.
    + replace (S i - length sc)%nat with (S (S k)) by lia.
      replace (S (S i) - length sc)%nat with (S (S (S k))) by lia.
      cbn [lookup list_lookup] in Hi |- *.
      destruct (IH (S idx) 15 k ltac:(lia) Hi) as (H1 & next & Hin & H2).
      split; [exact H1|]. exists next.
      split; [now apply list_elem_of_further|exact H2].
  - rewrite lookup_app_r in Hi by exact Hlen.
    rewrite !lookup_app_r by lia.
    replace (S i - length sc)%nat with (S (i - length sc)) by lia.
    replace (S (S i) - length sc)%nat with (S (S (i - length sc))) by lia.
    destruct (IH (S idx) _ _ ltac:(lia) Hi) as (H1 & next & Hin & H2).
    split; [exact H1|]. exists next.
      split; [now apply list_elem_of_further|exact H2].
Qed.

End AfterPageBreak.

(** X18: A page break is followed at once by the header of a section, written
    at the top margin 15: the bold font, then the name of a record of the
    collection with " Details". *)
Theorem exportPDF_after_addPage
    (numberToString : number -> string) (toLocaleString : string -> string)
    (splitTextToSize : string -> Z -> list string) (st : Dashboard) (i : nat) :
  let document :=
    snd (clickExport numberToString toLocaleString splitTextToSize st) in
  document !! i = Some addPage ->
  document !! S i = Some (setFont "helvetica" "bold")
  /\ exists item,
       item ∈ skills st
       /\ document !! S (S i) = Some (text (skill item +++ " Details") 10 15).
Proof.
  intros document. subst document. rewrite clickExport_report. unfold report.
  set (title := [setFontSize 18; text "Skill Radar Report" 10 15; setFontSize 12]).
  set (scores := textsFrom 10 8 25 _).
  set (secs := sectionsFrom _ _ _ _ _ _ _).
  rewrite (app_assoc title scores). set (pre := title ++ scores).
  intros Hi.
  assert (Hpre : forall j, pre !! j <> Some addPage).
  { intros j Hj. subst pre. destruct (Nat.lt_ge_cases j 3) as [H|H].
    - rewrite lookup_app_l in Hj by exact H.
      destruct j as [|[|[|j]]]; discriminate Hj.
    - rewrite lookup_app_r in Hj by exact H.
      now apply textsFrom_no_addPage in Hj. }
  assert (Hge : (length pre <= i)%nat).
  { destruct (Nat.le_gt_cases (length pre) i) as [H|H]; [exact H|].
    exfalso. rewrite lookup_app_l in Hi by exact H. now apply Hpre in Hi. }
  rewrite lookup_app_r in Hi by exact Hge.
  assert (Hsecs : secs !! (i - length pre)%nat = Some addPage).
  { destruct (Nat.lt_ge_cases (i - length pre) (length secs)) as [H|H].
    - now rewrite lookup_app_l in Hi by exact H.
    - rewrite lookup_app_r in Hi by exact H.
      destruct (_ - _ - _)%nat as [|[|k]]; discriminate Hi. }
  destruct (sectionsFrom_after_addPage numberToString toLocaleString
              splitTextToSize (length (skills st)) (skills st) 0 _ _ eq_refl Hsecs)
    as (H1 & item & Hin & H2).
  fold secs in H1, H2.
  split; [|exists item; split; [exact Hin|]].
  - rewrite lookup_app_r by lia.
    replace (S i - length pre)%nat with (S (i - length pre)) by lia.
    rewrite lookup_app_l by (eapply lookup_lt_Some; eassumption). exact H1.
  - rewrite lookup_app_r by lia.
    replace (S (S i) - length pre)%nat with (S (S (i - length pre))) by lia.
    rewrite lookup_app_l by (eapply lookup_lt_Some; eassumption). exact H2.
Qed.

Lemma exportPDF_after_addPage_witness :
  let document :=
    snd (clickExport demo_number demo_date demo_long_split
           (loadSkills (Resolved fetchSkills_data) initial)) in
  document !! 66%nat = Some (setFont "helvetica" "bold")
  /\ exists item,
       item ∈ fetchSkills_data
       /\ document !! 67%nat = Some (text (skill item +++ " Details") 10 15).
Proof.
  apply (exportPDF_after_addPage demo_number demo_date demo_long_split
           (loadSkills (Resolved fetchSkills_data) initial) 65).
  vm_compute. reflexivity.
Defined.

(** ** Selection and rendering *)

(** What [find] by name answers: a record of the list with that name, or
    nothing when the list has none. *)
Lemma find_by_name (name : string) (l : list Skill) :
  match List.find (fun s => String.eqb (skill s) name) l with
  | Some s => skill s = name /\ s ∈ l
  | None => forall s, s ∈ l -> skill s <> name
  end.
Proof.
  destruct (List.find _ l) as [s|] eqn:Hfind.
  - apply List.find_some in Hfind as [Hin Heq].
    apply String.eqb_eq in Heq. split; [exact Heq|].
    now apply list_elem_of_In.
  - intros s Hin Hname. apply list_elem_of_In in Hin.
    pose proof (List.find_none _ _ Hfind s Hin) as Hfalse.
    cbn beta in Hfalse. apply String.eqb_neq in Hfalse. contradiction.
Qed.

(** X19: The keyboard handler never touches the collection; on a key other than
    Enter and the space bar it changes nothing; on these two keys the
    selected record, if there is one, is a record of the collection with
    the requested name, and when nothing is selected no record has that
    name. *)
Theorem handleSkillButtonKeyDown_selects
    (key name : string) (st : Dashboard) :
  let st' := handleSkillButtonKeyDown key name st in
  skills st' = skills st
  /\ (key <> "Enter" /\ key <> " " -> st' = st)
  /\ (key = "Enter" \/ key = " " ->
      match selectedSkill st' with
      | Some s => skill s = name /\ s ∈ skills st
      | None => forall s, s ∈ skills st -> skill s <> name
      end).
Proof.
  intros st'. subst st'. unfold handleSkillButtonKeyDown. split; [|split].
  - now destruct (_ || _).
  - intros [H1 H2].
    apply String.eqb_neq in H1. apply String.eqb_neq in H2.
    now rewrite H1, H2.
  - intros Hkey.
    assert (Hb : String.eqb key "Enter" || String.eqb key " " = true)
      by (destruct Hkey as [-> | ->]; reflexivity).
    rewrite Hb. cbn [selectedSkill setSelectedSkill]. apply find_by_name.
Qed.

(** X20: When the names are pairwise different, Enter on the name of a record
    selects that very record. *)
Theorem handleSkillButtonKeyDown_unique
    (st : Dashboard) (i : nat) (item : Skill) :
  NoDup (skill <$> skills st) ->
  skills st !! i = Some item ->
  selectedSkill (handleSkillButtonKeyDown "Enter" (skill item) st) = Some item.
Proof.
  intros Hnodup Hitem.
  pose proof (find_by_name (skill item) (skills st)) as Hsel.
  unfold handleSkillButtonKeyDown.
  cbn [String.eqb Ascii.eqb Bool.eqb orb selectedSkill setSelectedSkill].
  destruct (List.find _ (skills st)) as [s|].
  - destruct Hsel as [Hname Hin].
    apply list_elem_of_lookup in Hin as [j Hj].
    assert (Hij : j = i).
    { eapply (NoDup_lookup _ j i (skill item) Hnodup);
        rewrite list_lookup_fmap; [rewrite Hj|rewrite Hitem]; cbn; congruence. }
    subst j. congruence.
  - exfalso. apply (Hsel item); [|reflexivity].
    now apply (list_elem_of_lookup_2 _ i).
Qed.

Lemma handleSkillButtonKeyDown_unique_witness :
  skill <$> selectedSkill
              (handleSkillButtonKeyDown "Enter" "Data Structures"
                 (loadSkills (Resolved fetchSkills_data) initial))
  = Some "Data Structures".
Proof.
  assert (Hnd : NoDup (skill <$> skills (loadSkills (Resolved fetchSkills_data)
                                           initial))).
  { cbn. rewrite !NoDup_cons, !not_elem_of_cons.
    repeat split; try discriminate; try apply not_elem_of_nil.
    constructor. }
  pose proof (handleSkillButtonKeyDown_unique
                (loadSkills (Resolved fetchSkills_data) initial) 1 _ Hnd eq_refl)
    as Hsel.
  cbn [skill] in Hsel. rewrite Hsel. reflexivity.
Defined.

(** X21: What is rendered after the load: the error after a rejected fetch, even
    when records from before are still there; the notice for an empty
    collection after a fetch that resolved to no record; the charts
    otherwise.  Before the load ends the loading notice is rendered. *)
Theorem view_after_load (st : Dashboard) :
  view initial = ViewLoading
  /\ view (loadSkills Rejected st) = ViewError msg_load_failed
  /\ forall data,
       view (loadSkills (Resolved data) st)
       = match data with [] => ViewNoSkills | _ => ViewCharts end.
Proof.
  split; [reflexivity|]. split; [reflexivity|].
  intros [|item data]; reflexivity.
Qed.

(** X22: With the load over, an accepted change of an existing record disables
    the row of that record and no other, a refused change disables nothing
    more, and the timer of the handler enables every row again. *)
Theorem rowDisabled_while_updating
    (idx : nat) (c : number) (st st' : Dashboard) :
  loading st = false ->
  handleSkillScoreChange idx c st = Some st' ->
  (rejected c = false -> forall j, rowDisabled j st' = Nat.eqb idx j)
  /\ (rejected c = true -> forall j, rowDisabled j st' = rowDisabled j st)
  /\ (forall j, rowDisabled j (updateTimeout st') = false).
Proof.
  intros Hload. unfold handleSkillScoreChange.
  destruct (rejected c) eqn:Hc.
  - intros [= <-]. split; [discriminate|]. split; [reflexivity|].
    intros j. unfold rowDisabled. cbn. now rewrite Hload.
  - destruct (skills st !! idx) as [old|]; [|discriminate].
    intros [= <-]. split; [|split; [discriminate|]].
    + intros _ j. unfold rowDisabled. cbn. now rewrite Hload.
    + intros j. unfold rowDisabled. cbn. now rewrite Hload.
Qed.

Lemma rowDisabled_while_updating_witness :
  exists st',
    handleSkillScoreChange 1 (JS.of_Z 9)
      (loadSkills (Resolved fetchSkills_data) initial) = Some st'
    /\ rowDisabled 1 st' = true
    /\ rowDisabled 0 st' = false
    /\ rowDisabled 1 (updateTimeout st') = false.
Proof.
  eexists. split; [reflexivity|].
  destruct (rowDisabled_while_updating 1 (JS.of_Z 9)
              (loadSkills (Resolved fetchSkills_data) initial) _
              eq_refl eq_refl) as (Hacc & _ & Hend).
  split; [apply (Hacc eq_refl 1%nat)|]. split; [apply (Hacc eq_refl 0%nat)|].
  apply Hend.
Defined.

(** ** The projections after a change *)

(** X11: An accepted change of an existing record shows in the radar data at the
    index of that record and nowhere else: the point there keeps the name
    and carries the new score. *)
Theorem radarData_after_change
    (idx : nat) (c : number) (st st' : Dashboard) (item : Skill) :
  skills st !! idx = Some item ->
  rejected c = false ->
  handleSkillScoreChange idx c st = Some st' ->
  radarData (skills st')
  = <[idx := {| RadarPoint.skill := skill item; RadarPoint.score := clamp c |}]>
      (radarData (skills st)).
Proof.
  intros Hitem Hc. unfold handleSkillScoreChange. rewrite Hc, Hitem.
  intros [= <-]. cbn [skills setSkills]. unfold radarData.
  now rewrite list_fmap_insert.
Qed.

Lemma radarData_after_change_witness :
  exists st',
    handleSkillScoreChange 0 (JS.of_Z 9)
      (loadSkills (Resolved fetchSkills_data) initial) = Some st'
    /\ RadarPoint.score <$> radarData (skills st') !! 0%nat = Some (JS.of_Z 9).
Proof.
  eexists. split; [reflexivity|].
  rewrite (radarData_after_change 0 (JS.of_Z 9)
             (loadSkills (Resolved fetchSkills_data) initial) _ _
             eq_refl eq_refl eq_refl).
  reflexivity.
Defined.

(** ** The message of a row and the commit *)

(** X4: [handleInput] always echoes the input into the field; it calls
    [onChange] exactly when it clears the message, and the value it passes
    is the number the input denotes, which lies in the interval. *)
Theorem handleInput_commit_iff (val : string) (row : SkillEditRow.RowState) :
  let result := SkillEditRow.handleInput val row in
  SkillEditRow.inputValue (fst result) = val
  /\ (SkillEditRow.error (fst result) = "" <-> snd result <> None)
  /\ (forall num,
        snd result = Some num -> num = Number val /\ in_range num = true).
Proof.
  intros result. subst result. rewrite handleInput_unfold.
  destruct (format_test val); cbn [negb].
  - destruct (rejected (Number val)) eqn:Hrej; cbn [fst snd
      SkillEditRow.inputValue SkillEditRow.error].
    + split; [reflexivity|]. split; [|discriminate].
      split; [discriminate|]. intros H. now contradiction H.
    + split; [reflexivity|]. split; [split; [discriminate|reflexivity]|].
      intros num [= <-]. split; [reflexivity|].
      rewrite rejected_in_range in Hrej. now apply negb_false_iff in Hrej.
  - cbn [fst snd SkillEditRow.inputValue SkillEditRow.error].
    split; [reflexivity|]. split; [|discriminate].
    split; [discriminate|]. intros H. now contradiction H.
Qed.
